(** * ZHA general channels: a shallow embedding of
      [homeassistant/components/zha/core/channels/general.py]

    The module under study is a catalogue of per-cluster channel classes.
    Their handlers are synchronous callbacks that read a few positional
    arguments, mutate one or two private fields and publish signals on the
    dispatcher.  We embed them as computations in a state-and-exception
    monad whose state is the channel object together with the part of the
    home-automation core it talks to (signal bus, timer queue, debug log,
    trace of cluster calls). *)

From Stdlib Require Import ZArith QArith Qcanon Lia Ascii String.
From stdpp Require Import base option list strings gmap pretty.

Local Open Scope string_scope.
Local Open Scope Z_scope.

(** ** Python values, truthiness and exceptions *)

Module Py.

(** The exception classes that can travel through the handlers. *)
Inductive exn : Type :=
| IndexError
| TypeError
| TimeoutError          (* asyncio.TimeoutError *)
| ZigbeeException       (* zigpy.exceptions.ZigbeeException *)
| RuntimeError.

(** Values that appear as command arguments, attribute values, signal
    payloads and log arguments.  A float is kept as the rational it
    denotes. *)
Inductive pyval : Type :=
| PNone
| PBool (b : bool)
| PInt (z : Z)
| PFloat (q : Qc)
| PStr (s : string)
| PExc (e : exn).

(** [bool(v)] *)
Definition truthy (v : pyval) : bool :=
  match v with
  | PNone => false
  | PBool b => b
  | PInt z => negb (z =? 0)
  | PFloat q => if Qc_eq_dec q 0%Qc then false else true
  | PStr s => negb (String.eqb s "")
  | PExc _ => true
  end.

(** [v == s] for a string literal [s]. *)
Definition eq_str (v : pyval) (s : string) : bool :=
  match v with
  | PStr s' => String.eqb s' s
  | _ => false
  end.

(** [cmd in (s1, s2, ...)] for a tuple of string literals. *)
Definition str_in (cmd : string) (names : list string) : bool :=
  existsb (String.eqb cmd) names.

(** A computation either returns or raises; the state it has reached is
    kept in both cases, as a Python object mutated before a [raise]
    stays mutated. *)
Definition M (S A : Type) : Type := S -> (exn + A) * S.

Definition ret {S A} (a : A) : M S A := fun s => (inr a, s).

Definition raise {S A} (e : exn) : M S A := fun s => (inl e, s).

Definition bind {S A B} (c : M S A) (k : A -> M S B) : M S B :=
  fun s =>
    match c s with
    | (inr a, s') => k a s'
    | (inl e, s') => (inl e, s')
    end.

Definition gets {S A} (f : S -> A) : M S A := fun s => (inr (f s), s).

Definition modify {S} (f : S -> S) : M S unit := fun s => (inr tt, f s).

(** [try: body except (classes) as ex: handler ex]; [handler] answers
    [None] for an exception outside the listed classes, which is then
    re-raised. *)
Definition try_except {S A} (body : M S A) (handler : exn -> option (M S A))
  : M S A :=
  fun s =>
    match body s with
    | (inr a, s') => (inr a, s')
    | (inl e, s') =>
        match handler e with
        | Some h => h s'
        | None => (inl e, s')
        end
    end.

(** [l[i]] for a constant non-negative index. *)
Definition getitem {S A} (l : list A) (i : nat) : M S A :=
  match l !! i with
  | Some x => ret x
  | None => raise IndexError
  end.

(** [l[i]] where [l] may be [None]. *)
Definition getitem_opt {S A} (l : option (list A)) (i : nat) : M S A :=
  match l with
  | Some l' => getitem l' i
  | None => raise TypeError
  end.

End Py.

Import Py.

Notation "'let!' x ':=' c 'in' k" := (bind c (fun x => k))
  (at level 10, x pattern, c at level 100, k at level 200).
Notation "c ';;;' k" := (bind c (fun _ => k))
  (at level 100, k at level 200, right associativity).

(** ** The collaborators of a channel *)

(** Names imported from [..const]; their string values are not part of
    this module, so a signal name keeps the constant it was built from. *)
Inductive SignalConst : Type :=
| SIGNAL_ATTR_UPDATED
| SIGNAL_MOVE_LEVEL
| SIGNAL_SET_LEVEL
| SIGNAL_STATE_ATTR
| SIGNAL_UPDATE_DEVICE.

Inductive SignalName : Type :=
| Suffixed (unique_id : string) (kind : SignalConst)
    (* f"{unique_id}_{KIND}" *)
| Formatted (template : SignalConst) (arg : string).
    (* KIND.format(arg) *)

Record Signal : Type := mkSignal {
  sig_name : SignalName;
  sig_payload : list pyval
}.

(** The only callback this module hands to the scheduler. *)
Inductive Callback : Type := set_to_off_cb.

Record Timer : Type := mkTimer {
  timer_handle : nat;
  timer_delay : Qc;        (* seconds *)
  timer_action : Callback
}.

Record LogRecord : Type := mkLog {
  log_msg : string;
  log_args : list pyval
}.

(** Calls made on the cluster object and on the attribute cache. *)
Inductive AttrRef : Type :=
| AttrName (name : string)
| AttrId (id : Z).

Inductive Call : Type :=
| CallGet (attr : AttrRef) (allow_cache : bool)
| CallReadAttributes (attr : AttrRef) (allow_cache : bool)
| CallWriteAttributes (attrs : list (string * Z))
| CallBind
| CallConfigureReporting (attrs : list AttrRef).

(** What a channel sees of the core: the dispatcher, the callbacks it has
    scheduled that have neither fired nor been cancelled, the debug log
    and the trace of cluster calls.  Newest entries come last. *)
Record Hass : Type := mkHass {
  bus : list Signal;
  timers : list Timer;
  next_handle : nat;
  log : list LogRecord;
  calls : list Call
}.

(** The zigpy cluster: identifier tables and the outcome of its network
    operations.  Table values are tuples whose item 0 is the name. *)
Record Cluster : Type := mkCluster {
  cluster_id : Z;
  is_client : bool;
  attributes : gmap Z (string * string);
  attridx : gmap string Z;
  server_commands : gmap Z (string * bool);
  client_commands : gmap Z (string * bool);
  read_attributes : AttrRef -> bool -> exn + pyval;
  write_attributes : list (string * Z) -> exn + pyval;
  bind_cluster : exn + pyval;
  configure_reporting : list AttrRef -> exn + pyval
}.

Record ChannelPool : Type := mkPool {
  pool_unique_id : string;
  is_mains_powered : bool
}.

Inductive ReportConfig : Type :=
| REPORT_CONFIG_ASAP
| REPORT_CONFIG_BATTERY_SAVE
| REPORT_CONFIG_DEFAULT
| REPORT_CONFIG_IMMEDIATE.

Record ReportConfigEntry : Type := mkEntry {
  attr : AttrRef;
  config : ReportConfig
}.

(** The fields every channel inherits from [ZigbeeChannel]. *)
Record ZigbeeChannel : Type := mkChannel {
  cluster : Cluster;
  _ch_pool : ChannelPool;
  unique_id : string;
  _report_config : list ReportConfigEntry;
  cache : gmap Z pyval
}.

(** A handler runs on its channel object and on the core. *)
Record Ctx (C : Type) : Type := mkCtx {
  self : C;
  hass : Hass
}.
Arguments mkCtx {C} _ _.
Arguments self {C} _.
Arguments hass {C} _.

(** Subclasses of [ZigbeeChannel] give access to the inherited fields. *)
Class IsChannel (C : Type) : Type := {
  super : C -> ZigbeeChannel;
  with_super : ZigbeeChannel -> C -> C
}.

Definition on_hass {C} (f : Hass -> Hass) : M (Ctx C) unit :=
  modify (fun c => mkCtx (self c) (f (hass c))).

Definition on_self {C} (f : C -> C) : M (Ctx C) unit :=
  modify (fun c => mkCtx (f (self c)) (hass c)).

Definition record_call {C} (k : Call) : M (Ctx C) unit :=
  on_hass (fun h => mkHass (bus h) (timers h) (next_handle h) (log h)
                           (calls h ++ [k])%list).

Definition with_bus (f : list Signal -> list Signal) (h : Hass) : Hass :=
  mkHass (f (bus h)) (timers h) (next_handle h) (log h) (calls h).

Definition with_timers (f : list Timer -> list Timer) (h : Hass) : Hass :=
  mkHass (bus h) (f (timers h)) (next_handle h) (log h) (calls h).

Definition with_log (f : list LogRecord -> list LogRecord) (h : Hass) : Hass :=
  mkHass (bus h) (timers h) (next_handle h) (f (log h)) (calls h).

(** ** The base channel and the core services *)

Module Base.

(** Modelled from the spec: [ZigbeeChannel.debug] lives in [.base], which
    is not in this module.  Section 6 gives a diagnostics sink that
    receives structured log records; a record is appended. *)
Definition debug {C} (msg : string) (args : list pyval) : M (Ctx C) unit :=
  on_hass (with_log (fun l => (l ++ [mkLog msg args])%list)).

(** Modelled from the spec: [async_send_signal] lives in [.base].
    Section 6: [publish(signal_name, *payload)], fire-and-forget; the
    signal is appended to the bus. *)
Definition async_send_signal {C} (name : SignalName) (payload : list pyval)
  : M (Ctx C) unit :=
  on_hass (with_bus (fun b => (b ++ [mkSignal name payload])%list)).

Definition received_msg : string :=
  "received '%s' command with %s args on cluster_id '%s' tsn '%s'".

(** Item 0 of the command table entry, or the numeric id stringified. *)
Definition command_name (table : gmap Z (string * bool)) (command_id : Z)
  : string :=
  match table !! command_id with
  | Some d => d.1
  | None => pretty command_id
  end.

(** Modelled from the spec: [parse_and_log_command] lives in [.base].
    Section 4.3: resolves [command_id] to a name with the cluster's
    command table, falling back to the stringified numeric id, and logs
    the transaction; it leaves the channel untouched. *)
Definition parse_and_log_command {C} `{IsChannel C}
    (tsn command_id : Z) (args : list Z) : M (Ctx C) string :=
  let! cl := gets (fun c => cluster (super (self c))) in
  let cmd := command_name (server_commands cl) command_id in
  debug received_msg
        ([PStr cmd] ++ (PInt <$> args) ++ [PInt (cluster_id cl); PInt tsn])%list ;;;
  ret cmd.

(** The attribute id an attribute reference stands for on a cluster. *)
Definition resolve_attr (cl : Cluster) (a : AttrRef) : option Z :=
  match a with
  | AttrId i => Some i
  | AttrName n => attridx cl !! n
  end.

Definition cache_put {C} `{IsChannel C} (a : AttrRef) (v : pyval)
  : M (Ctx C) unit :=
  on_self (fun ch =>
    let b := super ch in
    match resolve_attr (cluster b) a with
    | Some i =>
        with_super (mkChannel (cluster b) (_ch_pool b) (unique_id b)
                              (_report_config b) (<[i:=v]> (cache b))) ch
    | None => ch
    end).

(** Modelled from the spec: [get_attribute_value] lives in [.base].
    Section 4.1: with [allow_cache] a stored value is returned without
    I/O; on a miss, or without [allow_cache], a live read goes through
    the cluster and its result is stored; a failed read is logged and
    the attribute is reported as unknown ([None]). *)
Definition get_attribute_value {C} `{IsChannel C}
    (a : AttrRef) (from_cache : bool) : M (Ctx C) pyval :=
  record_call (CallGet a from_cache) ;;;
  let! b := gets (fun c => super (self c)) in
  let cached := resolve_attr (cluster b) a ≫= (fun i => cache b !! i) in
  match from_cache, cached with
  | true, Some v => ret v
  | _, _ =>
      record_call (CallReadAttributes a from_cache) ;;;
      match read_attributes (cluster b) a from_cache with
      | inr PNone => ret PNone
      | inr v => cache_put a v ;;; ret v
      | inl e =>
          debug "failed to get attributes '%s' on '%s' cluster: %s"
                [PInt (cluster_id (cluster b)); PExc e] ;;;
          ret PNone
      end
  end.

(** Modelled from the spec: [ZigbeeChannel.async_configure] lives in
    [.base].  Section 4.4: performs cluster binding and the report
    subscription of section 4.2 and completes regardless of partial
    failure; failures are logged, not fatal. *)
Definition async_configure {C} `{IsChannel C} : M (Ctx C) unit :=
  let! b := gets (fun c => super (self c)) in
  record_call CallBind ;;;
  match bind_cluster (cluster b) with
  | inr res => debug "bound '%s' cluster: %s" [PInt (cluster_id (cluster b)); res]
  | inl e => debug "Failed to bind '%s' cluster: %s"
                   [PInt (cluster_id (cluster b)); PExc e]
  end ;;;
  let attrs := attr <$> _report_config b in
  record_call (CallConfigureReporting attrs) ;;;
  match configure_reporting (cluster b) attrs with
  | inr res => debug "reporting configured on '%s' cluster: %s"
                     [PInt (cluster_id (cluster b)); res]
  | inl e => debug "failed to set reporting on '%s' cluster: %s"
                   [PInt (cluster_id (cluster b)); PExc e]
  end.

(** Modelled from the spec: [ZigbeeChannel.async_initialize] lives in
    [.base].  Section 4.4: populates the attribute cache for the
    channel's declared attributes, with [from_cache] as the
    [allow_cache] flag. *)
Definition async_initialize {C} `{IsChannel C} (from_cache : bool)
  : M (Ctx C) unit :=
  let! b := gets (fun c => super (self c)) in
  foldr (fun e k => get_attribute_value (attr e) from_cache ;;; k)
        (ret tt) (_report_config b).

(** Modelled from the spec: [ZigbeeChannel.async_update] lives in
    [.base].  Section 4.4 gives the base hook no effect of its own: the
    channel remains ready. *)
Definition async_update {C} `{IsChannel C} : M (Ctx C) unit := ret tt.

(** Modelled from the spec: [async_call_later] lives in
    [homeassistant.helpers.event].  Section 6:
    [call_later(delay_seconds, callback) -> cancel_handle]; the callback
    is queued under a fresh handle, which is returned. *)
Definition async_call_later {C} (delay : Qc) (action : Callback)
  : M (Ctx C) nat :=
  fun c =>
    let h := hass c in
    let n := next_handle h in
    (inr n,
     mkCtx (self c)
           (mkHass (bus h) (timers h ++ [mkTimer n delay action])%list (S n)
                   (log h) (calls h))).

(** Modelled from the spec: calling the cancel handle returned by
    [async_call_later].  Section 5: the timer is a cancellable scheduled
    callback; a cancelled callback leaves the queue and never runs. *)
Definition cancel {C} (n : nat) : M (Ctx C) unit :=
  on_hass (with_timers (filter (fun t => timer_handle t ≠ n))).

End Base.

(** ** Level Control *)

Module LevelControlChannel.

Record t : Type := mk { zigbee : ZigbeeChannel }.

#[global] Instance is_channel : IsChannel t :=
  {| super := zigbee; with_super := fun b _ => mk b |}.

Definition CURRENT_LEVEL : Z := 0.

Definition REPORT_CONFIG : list ReportConfigEntry :=
  [mkEntry (AttrName "current_level") REPORT_CONFIG_ASAP].

Definition dispatch_level_change (command : SignalConst) (level : pyval)
  : M (Ctx t) unit :=
  let! uid := gets (fun c => unique_id (super (self c))) in
  Base.async_send_signal (Suffixed uid command) [level].

Definition cluster_command (tsn command_id : Z) (args : list Z)
  : M (Ctx t) unit :=
  let! cmd := Base.parse_and_log_command tsn command_id args in
  if str_in cmd ["move_to_level"; "move_to_level_with_on_off"] then
    let! level := getitem args 0 in
    dispatch_level_change SIGNAL_SET_LEVEL (PInt level)
  else if str_in cmd ["move"; "move_with_on_off"] then
    let! rate := getitem args 1 in
    let! a0 := getitem args 0 in
    let rate := if a0 =? 255 then 10 else rate in
    dispatch_level_change SIGNAL_MOVE_LEVEL
                          (PInt (if negb (a0 =? 0) then - rate else rate))
  else if str_in cmd ["step"; "step_with_on_off"] then
    let! a0 := getitem args 0 in
    let! a1 := getitem args 1 in
    dispatch_level_change SIGNAL_MOVE_LEVEL
                          (PInt (if negb (a0 =? 0) then - a1 else a1))
  else ret tt.

Definition attribute_updated (attrid : Z) (value : pyval) : M (Ctx t) unit :=
  Base.debug "received attribute: %s update with value: %s"
             [PInt attrid; value] ;;;
  if attrid =? CURRENT_LEVEL then
    dispatch_level_change SIGNAL_SET_LEVEL value
  else ret tt.

End LevelControlChannel.

(** ** On/Off *)

Module OnOffChannel.

Record t : Type := mk {
  zigbee : ZigbeeChannel;
  _state : option bool;
  _off_listener : option nat
}.

#[global] Instance is_channel : IsChannel t :=
  {| super := zigbee;
     with_super := fun b ch => mk b (_state ch) (_off_listener ch) |}.

Definition ON_OFF : Z := 0.

Definition REPORT_CONFIG : list ReportConfigEntry :=
  [mkEntry (AttrName "on_off") REPORT_CONFIG_IMMEDIATE].

(** [__init__], applied to the object the base initialiser has built. *)
Definition __init__ (b : ZigbeeChannel) : t := mk b None None.

Definition set_state (st : option bool) : M (Ctx t) unit :=
  on_self (fun ch => mk (zigbee ch) st (_off_listener ch)).

Definition set_off_listener (l : option nat) : M (Ctx t) unit :=
  on_self (fun ch => mk (zigbee ch) (_state ch) l).

(** Truth value of [self._state], which is [None], [True] or [False]. *)
Definition state_truthy (st : option bool) : bool :=
  match st with
  | Some b => b
  | None => false
  end.

Definition attribute_updated (attrid : Z) (value : pyval) : M (Ctx t) unit :=
  if attrid =? ON_OFF then
    let! uid := gets (fun c => unique_id (super (self c))) in
    Base.async_send_signal (Suffixed uid SIGNAL_ATTR_UPDATED)
                           [PInt attrid; PStr "on_off"; value] ;;;
    set_state (Some (truthy value))
  else ret tt.

Definition set_to_off : M (Ctx t) unit :=
  set_off_listener None ;;;
  attribute_updated ON_OFF (PBool false).

(** [on_time / 10].  [on_time] is the unsigned 16-bit field of the
    frame; Python's true division gives the double nearest to the
    quotient, and the model keeps the quotient itself. *)
Definition tenths (on_time : Z) : Qc := Q2Qc (on_time # 10).

Definition cluster_command (tsn command_id : Z) (args : list Z)
  : M (Ctx t) unit :=
  let! cmd := Base.parse_and_log_command tsn command_id args in
  if str_in cmd ["off"; "off_with_effect"] then
    attribute_updated ON_OFF (PBool false)
  else if str_in cmd ["on"; "on_with_recall_global_scene"] then
    attribute_updated ON_OFF (PBool true)
  else if String.eqb cmd "on_with_timed_off" then
    let! should_accept := getitem args 0 in
    let! on_time := getitem args 1 in
    let! st := gets (fun c => _state (self c)) in
    if (should_accept =? 0) || ((should_accept =? 1) && state_truthy st) then
      let! l := gets (fun c => _off_listener (self c)) in
      match l with
      | Some h => Base.cancel h ;;; set_off_listener None
      | None => ret tt
      end ;;;
      attribute_updated ON_OFF (PBool true) ;;;
      if on_time >? 0 then
        let! h := Base.async_call_later (tenths on_time) set_to_off_cb in
        set_off_listener (Some h)
      else ret tt
    else ret tt
  else if String.eqb cmd "toggle" then
    let! st := gets (fun c => _state (self c)) in
    attribute_updated ON_OFF (PBool (negb (state_truthy st)))
  else ret tt.

(** Modelled from the spec: the scheduler of
    [homeassistant.helpers.event] running a due callback.  Section 5:
    a pending callback leaves the queue when it fires and is then run; a
    handle that is no longer pending (cancelled or already fired) runs
    nothing. *)
Definition fire (n : nat) : M (Ctx t) unit :=
  let! ts := gets (fun c => timers (hass c)) in
  match List.find (fun t => Nat.eqb (timer_handle t) n) ts with
  | Some tm =>
      Base.cancel n ;;;
      match timer_action tm with
      | set_to_off_cb => set_to_off
      end
  | None => ret tt
  end.

Definition async_initialize (from_cache : bool) : M (Ctx t) unit :=
  Base.async_initialize from_cache ;;;
  let! state := Base.get_attribute_value (AttrId ON_OFF) true in
  match state with
  | PNone => ret tt
  | v => set_state (Some (truthy v))
  end.

Definition async_update : M (Ctx t) unit :=
  let! b := gets (fun c => super (self c)) in
  if is_client (cluster b) then ret tt
  else
    let from_cache := negb (is_mains_powered (_ch_pool b)) in
    Base.debug "attempting to update onoff state - from cache: %s"
               [PBool from_cache] ;;;
    let! state := Base.get_attribute_value (AttrId ON_OFF) from_cache in
    match state with
    | PNone => ret tt
    | v => set_state (Some (truthy v))
    end ;;;
    Base.async_update.

End OnOffChannel.

(** ** OTA *)

(** [s.split(sep)] for a one-character separator. *)
Fixpoint str_split (sep : ascii) (s : string) : list string :=
  match s with
  | EmptyString => [EmptyString]
  | String c s' =>
      if Ascii.eqb c sep then EmptyString :: str_split sep s'
      else
        match str_split sep s' with
        | w :: ws => String c w :: ws
        | [] => [String c EmptyString]
        end
  end.

Module Ota.

Record t : Type := mk { zigbee : ZigbeeChannel }.

#[global] Instance is_channel : IsChannel t :=
  {| super := zigbee; with_super := fun b _ => mk b |}.

(** [table.get(command_id, [command_id])[0]] *)
Definition resolved (table : gmap Z (string * bool)) (command_id : Z)
  : pyval :=
  match table !! command_id with
  | Some d => PStr d.1
  | None => PInt command_id
  end.

Definition cluster_command (tsn command_id : Z) (args : option (list pyval))
  : M (Ctx t) unit :=
  let! b := gets (fun c => super (self c)) in
  let cmd_name := resolved (server_commands (cluster b)) command_id in
  let! signal_id := getitem (str_split "-" (pool_unique_id (_ch_pool b))) 0 in
  if eq_str cmd_name "query_next_image" then
    let! version := getitem_opt args 3 in
    Base.async_send_signal (Formatted SIGNAL_UPDATE_DEVICE signal_id)
                           [version]
  else ret tt.

End Ota.

(** ** Poll Control *)

Module PollControl.

Record t : Type := mk { zigbee : ZigbeeChannel }.

#[global] Instance is_channel : IsChannel t :=
  {| super := zigbee; with_super := fun b _ => mk b |}.

Definition CHECKIN_INTERVAL : Z := 55 * 60 * 4.
Definition CHECKIN_FAST_POLL_TIMEOUT : Z := 2 * 4.
Definition LONG_POLL : Z := 6 * 4.

(** [await self.cluster.write_attributes(attrs)] *)
Definition cluster_write_attributes (attrs : list (string * Z))
  : M (Ctx t) pyval :=
  record_call (CallWriteAttributes attrs) ;;;
  let! cl := gets (fun c => cluster (super (self c))) in
  match write_attributes cl attrs with
  | inr res => ret res
  | inl e => raise e
  end.

Definition async_configure : M (Ctx t) unit :=
  try_except
    (let! res := cluster_write_attributes
                   [("checkin_interval", CHECKIN_INTERVAL)] in
     Base.debug "%ss check-in interval set: %s"
                [PFloat (Q2Qc (CHECKIN_INTERVAL # 4)); res])
    (fun ex =>
       match ex with
       | TimeoutError | ZigbeeException =>
           Some (Base.debug "Couldn't set check-in interval: %s" [PExc ex])
       | _ => None
       end) ;;;
  Base.async_configure.

End PollControl.

(** ** Power Configuration *)

Module PowerConfigurationChannel.

Record t : Type := mk { zigbee : ZigbeeChannel }.

#[global] Instance is_channel : IsChannel t :=
  {| super := zigbee; with_super := fun b _ => mk b |}.

Definition REPORT_CONFIG : list ReportConfigEntry :=
  [mkEntry (AttrName "battery_voltage") REPORT_CONFIG_BATTERY_SAVE;
   mkEntry (AttrName "battery_percentage_remaining")
           REPORT_CONFIG_BATTERY_SAVE].

(** [self.cluster.attributes.get(attrid, [attrid])[0]] *)
Definition attribute_name (cl : Cluster) (attrid : Z) : pyval :=
  match attributes cl !! attrid with
  | Some d => PStr d.1
  | None => PInt attrid
  end.

(** [attrid == attr_id], where [attr_id] may be [None]. *)
Definition same_id (attrid : Z) (attr_id : option Z) : bool :=
  match attr_id with
  | Some i => attrid =? i
  | None => false
  end.

Definition attribute_updated (attrid : Z) (value : pyval) : M (Ctx t) unit :=
  let! b := gets (fun c => super (self c)) in
  let! entry := getitem (_report_config b) 1 in
  let attr_id :=
    match attr entry with
    | AttrName name => attridx (cluster b) !! name
    | AttrId i => Some i
    end in
  if same_id attrid attr_id then
    Base.async_send_signal
      (Suffixed (unique_id b) SIGNAL_ATTR_UPDATED)
      [PInt attrid; attribute_name (cluster b) attrid; value]
  else
    let attr_name := attribute_name (cluster b) attrid in
    Base.async_send_signal
      (Suffixed (unique_id b) SIGNAL_STATE_ATTR) [attr_name; value].

End PowerConfigurationChannel.

(** ** Concrete devices used to run the handlers *)

Module Sample.

Definition no_io_cluster (id : Z) (client : bool)
    (attrs : list (Z * string)) (server client_cmds : list (Z * string))
  : Cluster :=
  {| cluster_id := id;
     is_client := client;
     attributes := list_to_map ((fun p => (p.1, (p.2, "t"))) <$> attrs);
     attridx := list_to_map ((fun p => (p.2, p.1)) <$> attrs);
     server_commands :=
       list_to_map ((fun p => (p.1, (p.2, false))) <$> server);
     client_commands :=
       list_to_map ((fun p => (p.1, (p.2, true))) <$> client_cmds);
     read_attributes := fun _ _ => inl TimeoutError;
     write_attributes := fun _ => inl TimeoutError;
     bind_cluster := inl ZigbeeException;
     configure_reporting := fun _ => inl TimeoutError |}.

Definition pool : ChannelPool :=
  {| pool_unique_id := "00:0d:6f:00:0a:90:69:e7-1";
     is_mains_powered := true |}.

Definition channel (cl : Cluster) (rc : list ReportConfigEntry)
  : ZigbeeChannel :=
  {| cluster := cl;
     _ch_pool := pool;
     unique_id := "00:0d:6f:00:0a:90:69:e7:1:0x0000";
     _report_config := rc;
     cache := ∅ |}.

Definition idle : Hass :=
  {| bus := []; timers := []; next_handle := 0%nat; log := []; calls := [] |}.

Definition level_cluster : Cluster :=
  no_io_cluster 8 false [(0, "current_level")]
    [(0, "move_to_level"); (1, "move"); (2, "step"); (3, "stop");
     (4, "move_to_level_with_on_off"); (5, "move_with_on_off");
     (6, "step_with_on_off")] [].

Definition level : Ctx LevelControlChannel.t :=
  mkCtx (LevelControlChannel.mk
           (channel level_cluster LevelControlChannel.REPORT_CONFIG))
        idle.

Definition onoff_cluster : Cluster :=
  no_io_cluster 6 false [(0, "on_off")]
    [(0, "off"); (1, "on"); (2, "toggle"); (64, "off_with_effect");
     (65, "on_with_recall_global_scene"); (66, "on_with_timed_off")] [].

Definition onoff : Ctx OnOffChannel.t :=
  mkCtx (OnOffChannel.__init__
           (channel onoff_cluster OnOffChannel.REPORT_CONFIG))
        idle.

(** The client side of the same cluster, on the same mains-powered
    device. *)
(** The same channel once it has been switched on. *)
Definition onoff_on : Ctx OnOffChannel.t :=
  mkCtx (OnOffChannel.mk (channel onoff_cluster OnOffChannel.REPORT_CONFIG)
                         (Some true) None)
        idle.

Definition onoff_client : Ctx OnOffChannel.t :=
  mkCtx (OnOffChannel.__init__
           (channel (no_io_cluster 6 true [(0, "on_off")] [] [])
                    OnOffChannel.REPORT_CONFIG))
        idle.

Definition ota_cluster : Cluster :=
  no_io_cluster 25 true []
    [(1, "query_next_image"); (3, "image_block"); (6, "upgrade_end")] [].

Definition ota : Ctx Ota.t :=
  mkCtx (Ota.mk (channel ota_cluster [])) idle.

Definition poll_cluster : Cluster :=
  no_io_cluster 32 false [(0, "checkin_interval")] [] [(0, "checkin")].

Definition poll : Ctx PollControl.t :=
  mkCtx (PollControl.mk (channel poll_cluster [])) idle.

Definition power_cluster : Cluster :=
  no_io_cluster 1 false
    [(32, "battery_voltage"); (33, "battery_percentage_remaining");
     (49, "battery_size"); (51, "battery_quantity")] [] [].

Definition power : Ctx PowerConfigurationChannel.t :=
  mkCtx (PowerConfigurationChannel.mk
           (channel power_cluster PowerConfigurationChannel.REPORT_CONFIG))
        idle.

End Sample.

(** ** Vocabulary of the statements *)

(** The context after one more debug record. *)
Definition logged {C} (msg : string) (args : list pyval) (c : Ctx C) : Ctx C :=
  mkCtx (self c) (with_log (fun l => (l ++ [mkLog msg args])%list) (hass c)).

(** The context after one more published signal. *)
Definition published {C} (sg : Signal) (c : Ctx C) : Ctx C :=
  mkCtx (self c) (with_bus (fun b => (b ++ [sg])%list) (hass c)).

(** The context after one more recorded cluster call. *)
Definition called {C} (k : Call) (c : Ctx C) : Ctx C :=
  mkCtx (self c)
        (mkHass (bus (hass c)) (timers (hass c)) (next_handle (hass c))
                (log (hass c)) (calls (hass c) ++ [k])%list).

(** [p] is the part of [s] before its first [sep] (all of [s] when it has
    none). *)
Definition before_first (sep : ascii) (s p : string) : Prop :=
  (forall ch, In ch (list_ascii_of_string p) -> ch <> sep) /\
  (s = p \/ exists rest, s = (p ++ String sep rest)%string).

(** What the scheduler and the transport layer can do to an On/Off
    channel, one event at a time. *)
Inductive Event : Type :=
| Command (tsn command_id : Z) (args : list Z)
| AttributeReport (attrid : Z) (value : pyval)
| TimerFired (n : nat)
| Initialize (from_cache : bool)
| Update.

Definition handler (e : Event) : M (Ctx OnOffChannel.t) unit :=
  match e with
  | Command tsn command_id args =>
      OnOffChannel.cluster_command tsn command_id args
  | AttributeReport attrid value => OnOffChannel.attribute_updated attrid value
  | TimerFired n => OnOffChannel.fire n
  | Initialize from_cache => OnOffChannel.async_initialize from_cache
  | Update => OnOffChannel.async_update
  end.

(** The context an event leaves behind, whether its handler returned or
    raised. *)
Definition step (e : Event) (c : Ctx OnOffChannel.t) : Ctx OnOffChannel.t :=
  (handler e c).2.

(** Contexts an On/Off channel can be in: freshly constructed with nothing
    scheduled, then driven by any sequence of events. *)
Inductive reachable : Ctx OnOffChannel.t -> Prop :=
| reach_init (b : ZigbeeChannel) (h : Hass) :
    timers h = [] -> reachable (mkCtx (OnOffChannel.__init__ b) h)
| reach_step (c : Ctx OnOffChannel.t) (e : Event) :
    reachable c -> reachable (step e c).

(** The channel of [Sample.onoff] after an unconditional
    [on_with_timed_off] of five seconds, and after a second, conditional
    one of three seconds. *)
Definition timed_once : Ctx OnOffChannel.t :=
  step (Command 1 66 [0; 50]) Sample.onoff.

Definition timed_twice : Ctx OnOffChannel.t :=
  step (Command 2 66 [1; 30]) timed_once.

(** Handles of the callbacks still pending. *)
Definition pending {C} (c : Ctx C) : list nat :=
  timer_handle <$> timers (hass c).

(** The pending callbacks are exactly the one the channel holds a handle
    for, and handles are never reused. *)
Definition timer_inv (c : Ctx OnOffChannel.t) : Prop :=
  pending c = option_list (OnOffChannel._off_listener (self c)) /\
  Forall (fun n => (n < next_handle (hass c))%nat) (pending c).

(** The acceptance test of [on_with_timed_off]. *)
Definition accepted (should_accept : Z) (st : option bool) : bool :=
  (should_accept =? 0) || ((should_accept =? 1) && OnOffChannel.state_truthy st).

(** The queue once the callback behind the held handle, if any, has been
    cancelled. *)
Definition cancelled (l : option nat) (ts : list Timer) : list Timer :=
  match l with
  | Some h => filter (fun t => timer_handle t ≠ h) ts
  | None => ts
  end.

(** The signal an On/Off channel publishes for a new on/off value. *)
Definition on_off_signal (c : Ctx OnOffChannel.t) (value : pyval) : Signal :=
  mkSignal (Suffixed (unique_id (super (self c))) SIGNAL_ATTR_UPDATED)
           [PInt OnOffChannel.ON_OFF; PStr "on_off"; value].

(** [c'] holds the same handle, queue and handle counter as [c]. *)
Definition same_timers (c c' : Ctx OnOffChannel.t) : Prop :=
  OnOffChannel._off_listener (self c') = OnOffChannel._off_listener (self c) /\
  timers (hass c') = timers (hass c) /\
  next_handle (hass c') = next_handle (hass c).

(** ** Basic *)

Module BasicChannel.

Record t : Type := mk {
  zigbee : ZigbeeChannel;
  _power_source : pyval
}.

#[global] Instance is_channel : IsChannel t :=
  {| super := zigbee; with_super := fun b ch => mk b (_power_source ch) |}.

Definition UNKNOWN : Z := 0.
Definition BATTERY : Z := 3.

Definition POWER_SOURCES : gmap Z string :=
  list_to_map
    [(UNKNOWN, "Unknown");
     (1, "Mains (single phase)");
     (2, "Mains (3 phase)");
     (BATTERY, "Battery");
     (4, "DC source");
     (5, "Emergency mains constantly powered");
     (6, "Emergency mains and transfer switch")].

(** [__init__], applied to the object the base initialiser has built. *)
Definition __init__ (b : ZigbeeChannel) : t := mk b PNone.

Definition async_initialize (from_cache : bool) : M (Ctx t) unit :=
  let! power_source :=
    Base.get_attribute_value (AttrName "power_source") from_cache in
  match power_source with
  | PNone => ret tt
  | v => on_self (fun ch => mk (zigbee ch) v)
  end ;;;
  Base.async_initialize from_cache.

Definition async_configure : M (Ctx t) unit :=
  Base.async_configure ;;;
  async_initialize false.

Definition get_power_source (ch : t) : pyval := _power_source ch.

End BasicChannel.

(** ** Poll Control: incoming commands *)

Module PollControlCommand.

(** The two commands the check-in handshake sends to the cluster. *)
Inductive ClusterCommand : Type :=
| checkin_response (start_fast_polling : bool) (fast_poll_timeout : Z)
                   (tsn : Z)
| set_long_poll_interval (new_long_poll_interval : Z).

(** The only coroutine this module hands to the task scheduler. *)
Inductive Task : Type := check_in_response_task (tsn : Z).

(** What the command handler touches beyond the core: the device-event
    channel, the queue of background tasks, the commands delivered to the
    cluster and the outcome the cluster gives each of them. *)
Record World : Type := mkWorld {
  ctx : Ctx PollControl.t;
  device_events : list (pyval * option (list pyval));
  tasks : list Task;
  sent : list ClusterCommand;
  replies : ClusterCommand -> exn + pyval
}.

(** A computation on the core, run inside the larger world. *)
Definition lift {A} (m : M (Ctx PollControl.t) A) : M World A :=
  fun w =>
    let r := m (ctx w) in
    (r.1, mkWorld r.2 (device_events w) (tasks w) (sent w) (replies w)).

(** Modelled from the spec: [zha_send_event] lives in [.base].  Section 6:
    a separate device-event channel receives the raw command name and
    arguments; the pair is appended to it. *)
Definition zha_send_event (command : pyval) (args : option (list pyval))
  : M World unit :=
  modify (fun w =>
    mkWorld (ctx w) (device_events w ++ [(command, args)])%list (tasks w)
            (sent w) (replies w)).

(** Modelled from the spec: [create_catching_task] belongs to the cluster
    object.  Section 5: follow-up work is spawned as an independent
    background task and the triggering callback returns promptly; the task
    is queued, not run. *)
Definition create_catching_task (t : Task) : M World unit :=
  modify (fun w =>
    mkWorld (ctx w) (device_events w) (tasks w ++ [t])%list (sent w)
            (replies w)).

(** Modelled from the spec: awaiting one of the channel's command methods,
    which live in [.base].  Section 7: transport failures are caught at
    the adapter boundary and logged, and functionality degrades instead of
    aborting; the command is delivered and its outcome, result or
    failure, comes back as a value. *)
Definition send_command (k : ClusterCommand) : M World pyval :=
  modify (fun w =>
    mkWorld (ctx w) (device_events w) (tasks w) (sent w ++ [k])%list
            (replies w)) ;;;
  let! reply := gets (fun w => replies w k) in
  match reply with
  | inr res => ret res
  | inl e =>
      lift (Base.debug "command failed: %s" [PExc e]) ;;;
      ret (PExc e)
  end.

Definition cluster_command (tsn command_id : Z) (args : option (list pyval))
  : M World unit :=
  let! cl := gets (fun w => cluster (super (self (ctx w)))) in
  let cmd_name := Ota.resolved (client_commands cl) command_id in
  lift (Base.debug "Received %s tsn command '%s': %s"
                   ([PInt tsn; cmd_name] ++ default [] args)%list) ;;;
  zha_send_event cmd_name args ;;;
  if eq_str cmd_name "checkin" then
    create_catching_task (check_in_response_task tsn)
  else ret tt.

Definition check_in_response (tsn : Z) : M World unit :=
  send_command (checkin_response true PollControl.CHECKIN_FAST_POLL_TIMEOUT
                                 tsn) ;;;
  send_command (set_long_poll_interval PollControl.LONG_POLL) ;;;
  ret tt.

(** The task scheduler running a queued task. *)
Definition run_task (t : Task) : M World unit :=
  match t with
  | check_in_response_task tsn => check_in_response tsn
  end.

End PollControlCommand.

(** ** More concrete devices *)

Definition basic_cluster (answer : exn + pyval) : Cluster :=
  {| cluster_id := 0;
     is_client := false;
     attributes := {[ 7 := ("power_source", "t") ]};
     attridx := {[ "power_source" := 7 ]};
     server_commands := ∅;
     client_commands := ∅;
     read_attributes := fun _ _ => answer;
     write_attributes := fun _ => inl TimeoutError;
     bind_cluster := inr PNone;
     configure_reporting := fun _ => inr PNone |}.

(** A Basic channel on a device that answers a read of [power_source] with
    [answer]; the channel already knows [known]. *)
Definition basic (answer : exn + pyval) (known : pyval)
  : Ctx BasicChannel.t :=
  mkCtx (BasicChannel.mk (Sample.channel (basic_cluster answer) []) known)
        Sample.idle.

(** A Poll Control channel whose cluster accepts the write of the check-in
    interval, or fails it with [outcome]. *)
Definition poll_with (outcome : exn + pyval) : Ctx PollControl.t :=
  mkCtx (PollControl.mk
           (Sample.channel
              {| cluster_id := 32;
                 is_client := false;
                 attributes := ∅;
                 attridx := ∅;
                 server_commands := ∅;
                 client_commands := {[ 0 := ("checkin", false) ]};
                 read_attributes := fun _ _ => inl TimeoutError;
                 write_attributes := fun _ => outcome;
                 bind_cluster := inr PNone;
                 configure_reporting := fun _ => inr PNone |} []))
        Sample.idle.

(** The world of that channel with nothing queued, whose cluster answers
    the acknowledgement with [ack] and accepts the poll interval. *)
Definition poll_world (ack : exn + pyval) : PollControlCommand.World :=
  PollControlCommand.mkWorld (poll_with (inr PNone)) [] [] []
    (fun k =>
       match k with
       | PollControlCommand.checkin_response _ _ _ => ack
       | PollControlCommand.set_long_poll_interval _ => inr PNone
       end).

(** An On/Off channel whose cache already holds [on_off = True], on a
    device that does not answer reads. *)
Definition onoff_cached : Ctx OnOffChannel.t :=
  mkCtx (OnOffChannel.__init__
           {| cluster := Sample.onoff_cluster;
              _ch_pool := Sample.pool;
              unique_id := "00:0d:6f:00:0a:90:69:e7:1:0x0006";
              _report_config := OnOffChannel.REPORT_CONFIG;
              cache := {[ 0 := PBool true ]} |})
        Sample.idle.

(** A Power Configuration channel whose report configuration was cut down
    to its first entry. *)
Definition power_short : Ctx PowerConfigurationChannel.t :=
  mkCtx (PowerConfigurationChannel.mk
           (Sample.channel Sample.power_cluster
              [mkEntry (AttrName "battery_voltage")
                       REPORT_CONFIG_BATTERY_SAVE]))
        Sample.idle.

(** A Power Configuration channel on a cluster that does not know
    [battery_percentage_remaining]. *)
Definition power_no_percentage : Ctx PowerConfigurationChannel.t :=
  mkCtx (PowerConfigurationChannel.mk
           (Sample.channel
              (Sample.no_io_cluster 1 false [(32, "battery_voltage")] [] [])
              PowerConfigurationChannel.REPORT_CONFIG))
        Sample.idle.

(** An OTA channel on another endpoint of the device of [Sample.ota]. *)
Definition ota_endpoint_2 : Ctx Ota.t :=
  mkCtx (Ota.mk
           {| cluster := Sample.ota_cluster;
              _ch_pool := {| pool_unique_id := "00:0d:6f:00:0a:90:69:e7-2";
                             is_mains_powered := true |};
              unique_id := "00:0d:6f:00:0a:90:69:e7:2:0x0019";
              _report_config := [];
              cache := ∅ |})
        Sample.idle.

(** The names a Level Control command can publish under. *)
Definition level_kind (k : SignalConst) : Prop :=
  k = SIGNAL_SET_LEVEL \/ k = SIGNAL_MOVE_LEVEL.

(** The commands Level Control reacts to, with the number of leading
    arguments each one reads. *)
Definition level_arity (cmd : string) : option nat :=
  if str_in cmd ["move_to_level"; "move_to_level_with_on_off"] then Some 1%nat
  else if str_in cmd ["move"; "move_with_on_off"; "step"; "step_with_on_off"]
       then Some 2%nat
       else None.

(** From [c] to [c'] either nothing was published and the tracked state
    was kept, or one on/off update was published and the tracked state is
    the truth value it carries. *)
Definition follows_bus (c c' : Ctx OnOffChannel.t) : Prop :=
  (bus (hass c') = bus (hass c) /\
   OnOffChannel._state (self c') = OnOffChannel._state (self c)) \/
  exists v : pyval,
    bus (hass c') = (bus (hass c) ++ [on_off_signal c v])%list /\
    OnOffChannel._state (self c') = Some (truthy v).

(** ** Shared facts about the collaborators *)

Lemma parse_and_log_command_run {C} `{IsChannel C}
    (tsn command_id : Z) (args : list Z) (c : Ctx C) :
  let cl := cluster (super (self c)) in
  let cmd := Base.command_name (server_commands cl) command_id in
  Base.parse_and_log_command tsn command_id args c =
    (inr cmd,
     logged Base.received_msg
            ([PStr cmd] ++ (PInt <$> args) ++ [PInt (cluster_id cl); PInt tsn])%list
            c).
Proof. reflexivity. Qed.

Lemma str_split_head (sep : ascii) (s : string) :
  exists p ws, str_split sep s = p :: ws /\ before_first sep s p.
Proof.
  induction s as [|ch s IH]; simpl.
  - exists EmptyString, []. split; [reflexivity|].
    split; [intros ? []|now left].
  - destruct (Ascii.eqb_spec ch sep) as [->|Hne].
    + exists EmptyString, (str_split sep s). split; [reflexivity|].
      split; [intros ? []|right; now exists s].
    + destruct IH as (p & ws & -> & Hno & Hs).
      exists (String ch p), ws. split; [reflexivity|]. split.
      * intros x [<-|Hin]; [exact Hne|now apply Hno].
      * destruct Hs as [->|[rest ->]]; [now left|right; now exists rest].
Qed.

(** ** Level Control *)

(** What [move] and [move_with_on_off] dispatch: the default rate is
    selected by the mode argument, not by the rate argument. *)
Lemma level_move_dispatch (c : Ctx LevelControlChannel.t)
    (tsn command_id mode rate : Z) (rest : list Z) :
  let cmd := Base.command_name (server_commands (cluster (super (self c))))
                               command_id in
  cmd = "move" \/ cmd = "move_with_on_off" ->
  let r := LevelControlChannel.cluster_command tsn command_id
             (mode :: rate :: rest) c in
  let magnitude := if mode =? 255 then 10 else rate in
  r.1 = inr tt /\
  bus (hass r.2) =
    (bus (hass c) ++
     [mkSignal (Suffixed (unique_id (super (self c))) SIGNAL_MOVE_LEVEL)
               [PInt (if mode =? 0 then magnitude else - magnitude)]])%list.
Proof.
  intros cmd Hcmd. unfold LevelControlChannel.cluster_command, bind.
  rewrite parse_and_log_command_run. fold cmd.
  destruct Hcmd as [-> | ->]; cbn; destruct (mode =? 0); auto.
Qed.

(** C1 (code defect): on the device of [Sample.level], [move(mode=1,
    rate=0xFF)] dispatches a move-level signal with value -255, not the
    default rate -10 the rate code 0xFF stands for; [move(mode=0, rate=20)]
    dispatches +20. *)
Theorem level_move_rate_code_ignored :
  bus (hass (LevelControlChannel.cluster_command 7 1 [1; 255] Sample.level).2) =
    [mkSignal (Suffixed (unique_id (super (self Sample.level)))
                        SIGNAL_MOVE_LEVEL) [PInt (-255)]] /\
  bus (hass (LevelControlChannel.cluster_command 8 1 [0; 20] Sample.level).2) =
    [mkSignal (Suffixed (unique_id (super (self Sample.level)))
                        SIGNAL_MOVE_LEVEL) [PInt 20]].
Proof. split; vm_compute; reflexivity. Qed.

(** ** OTA *)

#[global] Arguments Ota.resolved : simpl never.
#[global] Arguments Base.command_name : simpl never.
#[global] Arguments PowerConfigurationChannel.attribute_name : simpl never.

Ltac ota_unfold p Hp :=
  match goal with
  | |- context [Ota.cluster_command _ _ _ ?c] =>
      let ws := fresh "ws" in
      let Hsplit := fresh "Hsplit" in
      destruct (str_split_head "-"
                  (pool_unique_id (_ch_pool (super (self c)))))
        as (p & ws & Hsplit & Hp);
      unfold Ota.cluster_command, bind, gets, getitem;
      cbv beta iota; rewrite Hsplit; cbn in *
  end.

(** C2 (amended): a [query_next_image] command whose argument list is
    [None] or has fewer than four elements is not silently ignored: the
    handler emits no signal, changes nothing, and raises ([TypeError] for
    [None], [IndexError] for a short list). *)
Theorem ota_short_args_raise (c : Ctx Ota.t) (tsn command_id : Z)
    (args : option (list pyval)) :
  Ota.resolved (server_commands (cluster (super (self c)))) command_id
    = PStr "query_next_image" ->
  (args = None \/ exists l, args = Some l /\ (length l < 4)%nat) ->
  Ota.cluster_command tsn command_id args c =
    (inl (match args with None => TypeError | Some _ => IndexError end), c).
Proof.
  intros Hcmd Hshort. ota_unfold p Hp. rewrite Hcmd. cbn.
  destruct Hshort as [-> | (l & -> & Hlen)]; [reflexivity|].
  unfold getitem_opt, getitem.
  rewrite (lookup_ge_None_2 l 3) by lia. reflexivity.
Qed.

Lemma ota_short_args_raise_witness :
  Ota.cluster_command 7 1 (Some [PInt 1; PInt 2]) Sample.ota =
    (inl IndexError, Sample.ota).
Proof.
  apply (ota_short_args_raise Sample.ota 7 1 (Some [PInt 1; PInt 2])).
  - reflexivity.
  - right. exists [PInt 1; PInt 2]. split; [reflexivity | simpl; lia].
Defined.

(** C2 (as stated, refuted): on the device of [Sample.ota] a
    [query_next_image] command with an empty argument list raises
    [IndexError], so short argument lists are not always ignored without
    an error. *)
Lemma ota_short_args_not_ignored :
  (Ota.cluster_command 7 1 (Some []) Sample.ota).1 = inl IndexError /\
  ~ (forall (c : Ctx Ota.t) (tsn command_id : Z) (args : option (list pyval)),
        Ota.resolved (server_commands (cluster (super (self c)))) command_id
          = PStr "query_next_image" ->
        (args = None \/ exists l, args = Some l /\ (length l < 4)%nat) ->
        (Ota.cluster_command tsn command_id args c).1 = inr tt /\
        bus (hass (Ota.cluster_command tsn command_id args c).2)
          = bus (hass c)).
Proof.
  split; [vm_compute; reflexivity|].
  intros Hclaim.
  destruct (Hclaim Sample.ota 7 1 (Some [])) as [Hret _].
  - reflexivity.
  - right. exists []. split; [reflexivity | simpl; lia].
  - vm_compute in Hret. discriminate Hret.
Qed.

(** C7: a command that resolves to [query_next_image] and carries at least
    four arguments emits exactly one "update device" signal, whose name
    is built from the part of the pool's unique id before its first "-"
    and whose payload is the argument at index 3; a command that resolves
    to anything else emits nothing and returns. *)
Theorem ota_query_next_image_signal (c : Ctx Ota.t) (tsn command_id : Z)
    (args : option (list pyval)) :
  let cmd_name :=
    Ota.resolved (server_commands (cluster (super (self c)))) command_id in
  (forall (l : list pyval) (version : pyval),
      cmd_name = PStr "query_next_image" ->
      args = Some l -> l !! 3%nat = Some version ->
      exists prefix,
        before_first "-" (pool_unique_id (_ch_pool (super (self c)))) prefix /\
        Ota.cluster_command tsn command_id args c =
          (inr tt,
           published (mkSignal (Formatted SIGNAL_UPDATE_DEVICE prefix)
                               [version]) c)) /\
  (cmd_name <> PStr "query_next_image" ->
   Ota.cluster_command tsn command_id args c = (inr tt, c)).
Proof.
  intros cmd_name. split.
  - intros l version Hcmd -> Hl. ota_unfold p Hp.
    exists p. split; [exact Hp|].
    fold cmd_name. rewrite Hcmd. cbn.
    unfold getitem. rewrite Hl. reflexivity.
  - intros Hne. ota_unfold p Hp. fold cmd_name.
    destruct cmd_name as [| | | |s|] eqn:E; try reflexivity.
    cbn. destruct (String.eqb_spec s "query_next_image") as [->|_];
      [contradiction|reflexivity].
Qed.

Lemma ota_query_next_image_signal_witness :
  (exists prefix,
     before_first "-" "00:0d:6f:00:0a:90:69:e7-1" prefix /\
     Ota.cluster_command 7 1 (Some [PInt 1; PInt 2; PInt 3; PInt 4]) Sample.ota
       = (inr tt,
          published (mkSignal (Formatted SIGNAL_UPDATE_DEVICE prefix)
                              [PInt 4]) Sample.ota)) /\
  Ota.cluster_command 7 3 None Sample.ota = (inr tt, Sample.ota).
Proof.
  split.
  - apply (proj1 (ota_query_next_image_signal Sample.ota 7 1
                    (Some [PInt 1; PInt 2; PInt 3; PInt 4]))
             [PInt 1; PInt 2; PInt 3; PInt 4] (PInt 4));
      reflexivity.
  - apply (proj2 (ota_query_next_image_signal Sample.ota 7 3 None)).
    vm_compute. discriminate.
Defined.

(** ** On/Off *)

Section OnWithTimedOff.

Variables (c : Ctx OnOffChannel.t) (tsn command_id : Z).
Variables (should_accept on_time : Z) (rest : list Z).

Hypothesis Hcmd :
  Base.command_name (server_commands (cluster (super (self c)))) command_id
    = "on_with_timed_off".

Let r := OnOffChannel.cluster_command tsn command_id
           (should_accept :: on_time :: rest) c.

Lemma on_with_timed_off_rejected :
  accepted should_accept (OnOffChannel._state (self c)) = false ->
  r.1 = inr tt /\ self r.2 = self c /\ bus (hass r.2) = bus (hass c) /\
  timers (hass r.2) = timers (hass c) /\
  next_handle (hass r.2) = next_handle (hass c).
Proof.
  intros Hacc. subst r. unfold OnOffChannel.cluster_command, bind.
  rewrite parse_and_log_command_run, Hcmd. cbn.
  unfold accepted in Hacc. rewrite Hacc. cbn. auto.
Qed.

Lemma on_with_timed_off_accepted :
  accepted should_accept (OnOffChannel._state (self c)) = true ->
  let held := OnOffChannel._off_listener (self c) in
  let fresh := next_handle (hass c) in
  r.1 = inr tt /\
  OnOffChannel.zigbee (self r.2) = OnOffChannel.zigbee (self c) /\
  OnOffChannel._state (self r.2) = Some true /\
  bus (hass r.2) = (bus (hass c) ++ [on_off_signal c (PBool true)])%list /\
  (0 < on_time ->
     OnOffChannel._off_listener (self r.2) = Some fresh /\
     timers (hass r.2) =
       (cancelled held (timers (hass c)) ++
        [mkTimer fresh (OnOffChannel.tenths on_time) set_to_off_cb])%list /\
     next_handle (hass r.2) = S fresh) /\
  (on_time <= 0 ->
     OnOffChannel._off_listener (self r.2) = None /\
     timers (hass r.2) = cancelled held (timers (hass c)) /\
     next_handle (hass r.2) = fresh).
Proof.
  intros Hacc held fresh. subst r held fresh.
  unfold OnOffChannel.cluster_command, bind.
  rewrite parse_and_log_command_run, Hcmd. cbn.
  unfold accepted in Hacc. rewrite Hacc.
  destruct c as [[b st l] h]; cbn in *.
  destruct l as [n|]; cbn;
    destruct (Z.gtb_spec on_time 0); cbn;
    repeat split; try reflexivity; intros; try lia.
Qed.

End OnWithTimedOff.

Ltac break_match :=
  match goal with
  | |- context [match ?x with _ => _ end] => destruct x eqn:?
  | |- context [if ?x then _ else _] => destruct x eqn:?
  end.

Lemma same_timers_refl (c : Ctx OnOffChannel.t) : same_timers c c.
Proof. now repeat split. Qed.

Lemma same_timers_trans (c1 c2 c3 : Ctx OnOffChannel.t) :
  same_timers c1 c2 -> same_timers c2 c3 -> same_timers c1 c3.
Proof.
  intros (Hl & Ht & Hn) (Hl' & Ht' & Hn').
  repeat split; congruence.
Qed.

Lemma timer_inv_same (c c' : Ctx OnOffChannel.t) :
  same_timers c c' -> timer_inv c -> timer_inv c'.
Proof.
  intros (Hl & Ht & Hn) [Hp Hf]. unfold timer_inv, pending in *.
  rewrite Hl, Ht, Hn. now split.
Qed.

Lemma attribute_updated_frame (attrid : Z) (value : pyval)
    (c : Ctx OnOffChannel.t) :
  let r := OnOffChannel.attribute_updated attrid value c in
  r.1 = inr tt /\ same_timers c r.2.
Proof.
  unfold OnOffChannel.attribute_updated.
  destruct (attrid =? OnOffChannel.ON_OFF); cbn; split;
    try reflexivity; now repeat split.
Qed.

Lemma get_attribute_value_frame (a : AttrRef) (from_cache : bool)
    (c : Ctx OnOffChannel.t) :
  let r := Base.get_attribute_value a from_cache c in
  (exists v, r.1 = inr v) /\ same_timers c r.2 /\
  OnOffChannel._state (self r.2) = OnOffChannel._state (self c).
Proof.
  unfold Base.get_attribute_value, Base.cache_put, bind, record_call,
    on_self, on_hass, modify, gets, ret.
  cbv beta iota.
  repeat (break_match; cbn);
    (split; [eexists; reflexivity|now repeat split]).
Qed.

Lemma populate_frame (from_cache : bool) (l : list ReportConfigEntry)
    (c : Ctx OnOffChannel.t) :
  let r := foldr (fun e k => Base.get_attribute_value (attr e) from_cache ;;; k)
                 (ret tt) l c in
  r.1 = inr tt /\ same_timers c r.2.
Proof.
  revert c. induction l as [|e l IH]; intros c; cbn [foldr].
  - split; [reflexivity|apply same_timers_refl].
  - destruct (get_attribute_value_frame (attr e) from_cache c)
      as ([v Hv] & Hsame & _).
    set (rest := foldr _ _ l) in *. unfold bind.
    destruct (Base.get_attribute_value (attr e) from_cache c) as [[x|v'] c1];
      cbn [fst snd] in Hv, Hsame.
    + discriminate.
    + destruct (IH c1) as [Hret Hsame']. split; [exact Hret|].
      eapply same_timers_trans; eassumption.
Qed.

Lemma async_initialize_frame (from_cache : bool) (c : Ctx OnOffChannel.t) :
  let r := Base.async_initialize from_cache c in
  r.1 = inr tt /\ same_timers c r.2.
Proof. exact (populate_frame from_cache (_report_config (super (self c))) c). Qed.

Lemma cancelled_inv (c : Ctx OnOffChannel.t) :
  timer_inv c ->
  cancelled (OnOffChannel._off_listener (self c)) (timers (hass c)) = [].
Proof.
  intros [Hp _]. unfold pending in Hp.
  destruct (OnOffChannel._off_listener (self c)) as [h|]; cbn in *.
  - destruct (timers (hass c)) as [|t [|t' ts]]; cbn in Hp; try discriminate.
    injection Hp as Hh. rewrite filter_cons, decide_False; [reflexivity|].
    intros Hne. now apply Hne.
  - now apply fmap_nil_inv in Hp.
Qed.

Lemma fire_not_pending (n : nat) (c : Ctx OnOffChannel.t) :
  n ∉ pending c -> OnOffChannel.fire n c = (inr tt, c).
Proof.
  intros Hn. unfold OnOffChannel.fire, bind, gets. cbv beta iota.
  destruct (List.find _ (timers (hass c))) as [tm|] eqn:Hfind; [|reflexivity].
  apply find_some in Hfind as [Hin Heq].
  apply Nat.eqb_eq in Heq. exfalso. apply Hn. unfold pending.
  rewrite <- Heq. apply list_elem_of_fmap_2, list_elem_of_In, Hin.
Qed.

Lemma fire_pending (n : nat) (c : Ctx OnOffChannel.t) :
  timer_inv c -> n ∈ pending c ->
  let r := OnOffChannel.fire n c in
  r.1 = inr tt /\
  OnOffChannel._off_listener (self r.2) = None /\
  timers (hass r.2) = [] /\
  next_handle (hass r.2) = next_handle (hass c) /\
  OnOffChannel._state (self r.2) = Some false /\
  bus (hass r.2) = (bus (hass c) ++ [on_off_signal c (PBool false)])%list.
Proof.
  intros Hinv Hn. pose proof (cancelled_inv c Hinv) as Hcan.
  destruct Hinv as [Hp _]. unfold pending in *.
  destruct c as [[b st l] h]; cbn in *.
  destruct l as [m|]; cbn in *;
    [|rewrite Hp in Hn; now apply not_elem_of_nil in Hn].
  rewrite Hp in Hn. apply list_elem_of_singleton in Hn. subst m.
  unfold OnOffChannel.fire, bind, gets. cbv beta iota. cbn.
  destruct (timers h) as [|t [|t' ts]] eqn:Ht; cbn in Hp; try discriminate.
  injection Hp as Hh. cbn. rewrite Hh, Nat.eqb_refl. cbn.
  destruct t as [th td []]; cbn in *. subst th.
  rewrite Ht. cbn. rewrite Hcan. now repeat split.
Qed.

Lemma same_timers_logged (msg : string) (args : list pyval)
    (c : Ctx OnOffChannel.t) :
  same_timers c (logged msg args c).
Proof. now repeat split. Qed.

Ltac after_attribute_updated Hinv :=
  eapply timer_inv_same; [|exact Hinv];
  eapply same_timers_trans;
    [apply same_timers_logged|apply attribute_updated_frame].

Lemma cluster_command_inv (tsn command_id : Z) (args : list Z)
    (c : Ctx OnOffChannel.t) :
  timer_inv c ->
  timer_inv (OnOffChannel.cluster_command tsn command_id args c).2.
Proof.
  intros Hinv.
  destruct (String.eqb_spec
              (Base.command_name (server_commands (cluster (super (self c))))
                                 command_id)
              "on_with_timed_off") as [Hcmd|Hne].
  - destruct args as [|a [|b rest]].
    + unfold OnOffChannel.cluster_command, bind.
      rewrite parse_and_log_command_run, Hcmd. cbn.
      eapply timer_inv_same; [|exact Hinv]. now repeat split.
    + unfold OnOffChannel.cluster_command, bind.
      rewrite parse_and_log_command_run, Hcmd. cbn.
      eapply timer_inv_same; [|exact Hinv]. now repeat split.
    + destruct (accepted a (OnOffChannel._state (self c))) eqn:Hacc.
      * destruct (on_with_timed_off_accepted c tsn command_id a b rest
                    Hcmd Hacc) as (_ & _ & _ & _ & Hpos & Hzero).
        destruct (Z.lt_ge_cases 0 b) as [Hb|Hb].
        -- destruct (Hpos Hb) as (Hl & Ht & Hn).
           unfold timer_inv, pending.
           rewrite Hl, Ht, Hn, cancelled_inv by assumption. cbn.
           split; [reflexivity|]. repeat constructor.
        -- destruct (Hzero Hb) as (Hl & Ht & Hn).
           unfold timer_inv, pending.
           rewrite Hl, Ht, cancelled_inv by assumption. cbn.
           split; [reflexivity|constructor].
      * destruct (on_with_timed_off_rejected c tsn command_id a b rest
                    Hcmd Hacc) as (_ & Hself & _ & Ht & Hn).
        eapply timer_inv_same; [|exact Hinv].
        repeat split; [now rewrite Hself|exact Ht|exact Hn].
  - unfold OnOffChannel.cluster_command, bind.
    rewrite parse_and_log_command_run. cbv beta iota zeta.
    destruct (str_in _ ["off"; "off_with_effect"]);
      [after_attribute_updated Hinv|].
    destruct (str_in _ ["on"; "on_with_recall_global_scene"]);
      [after_attribute_updated Hinv|].
    destruct (String.eqb_spec
                (Base.command_name
                   (server_commands (cluster (super (self c)))) command_id)
                "on_with_timed_off"); [contradiction|].
    destruct (String.eqb _ "toggle").
    + unfold gets. cbv beta iota. after_attribute_updated Hinv.
    + eapply timer_inv_same; [apply same_timers_logged|exact Hinv].
Qed.

Lemma async_update_inv (c : Ctx OnOffChannel.t) :
  timer_inv c -> timer_inv (OnOffChannel.async_update c).2.
Proof.
  intros Hinv. unfold OnOffChannel.async_update, bind, gets.
  cbv beta iota zeta.
  destruct (is_client _); [exact Hinv|].
  unfold Base.debug, on_hass, modify. cbv beta iota.
  match goal with
  | |- context [Base.get_attribute_value ?a ?f ?c'] =>
      destruct (get_attribute_value_frame a f c') as ([v Hv] & Hsame & _);
      destruct (Base.get_attribute_value a f c') as [[x|v'] c1];
      cbn [fst snd] in Hv, Hsame
  end; [discriminate|].
  eapply timer_inv_same; [|exact Hinv].
  eapply same_timers_trans; [|eapply same_timers_trans; [exact Hsame|]].
  - now repeat split.
  - destruct v'; now repeat split.
Qed.

Lemma async_initialize_inv (from_cache : bool) (c : Ctx OnOffChannel.t) :
  timer_inv c -> timer_inv (OnOffChannel.async_initialize from_cache c).2.
Proof.
  intros Hinv. unfold OnOffChannel.async_initialize.
  destruct (async_initialize_frame from_cache c) as [Hret Hsame0].
  unfold bind at 1.
  destruct (Base.async_initialize from_cache c) as [[x|[]] c0];
    cbn [fst snd] in Hret, Hsame0; [discriminate|].
  unfold bind.
  destruct (get_attribute_value_frame (AttrId OnOffChannel.ON_OFF) true c0)
    as ([v Hv] & Hsame & _).
  destruct (Base.get_attribute_value _ true c0) as [[x|v'] c1];
    cbn [fst snd] in Hv, Hsame; [discriminate|].
  eapply timer_inv_same; [|exact Hinv].
  eapply same_timers_trans; [exact Hsame0|].
  eapply same_timers_trans; [exact Hsame|].
  destruct v'; now repeat split.
Qed.

Lemma fire_inv (n : nat) (c : Ctx OnOffChannel.t) :
  timer_inv c -> timer_inv (OnOffChannel.fire n c).2.
Proof.
  intros Hinv. destruct (decide (n ∈ pending c)) as [Hin|Hout].
  - destruct (fire_pending n c Hinv Hin) as (_ & Hl & Ht & _).
    unfold timer_inv, pending. rewrite Hl, Ht. cbn.
    split; [reflexivity|constructor].
  - now rewrite fire_not_pending.
Qed.

Lemma step_inv (e : Event) (c : Ctx OnOffChannel.t) :
  timer_inv c -> timer_inv (step e c).
Proof.
  intros Hinv. destruct e; unfold step, handler.
  - now apply cluster_command_inv.
  - eapply timer_inv_same; [apply attribute_updated_frame|exact Hinv].
  - now apply fire_inv.
  - now apply async_initialize_inv.
  - now apply async_update_inv.
Qed.

Lemma reachable_inv (c : Ctx OnOffChannel.t) : reachable c -> timer_inv c.
Proof.
  induction 1 as [b h Hempty|c e _ IH].
  - unfold timer_inv, pending. cbn. rewrite Hempty. split; [reflexivity|constructor].
  - now apply step_inv.
Qed.

(** C3: [on_with_timed_off] with accept-flag 1 while the tracked state is
    off or unknown changes nothing on the channel, publishes nothing and
    schedules nothing; with accept-flag 0, or accept-flag 1 while the
    tracked state is on, it sets the state to on, publishes the on/off
    update and, when [on_time > 0], schedules [set_to_off] after
    [on_time / 10] seconds, the quotient taken exactly, which for
    [on_time = 50] is 5 seconds. *)
Theorem on_with_timed_off_acceptance (c : Ctx OnOffChannel.t)
    (tsn command_id should_accept on_time : Z) (rest : list Z) :
  Base.command_name (server_commands (cluster (super (self c)))) command_id
    = "on_with_timed_off" ->
  let r := OnOffChannel.cluster_command tsn command_id
             (should_accept :: on_time :: rest) c in
  let held := OnOffChannel._off_listener (self c) in
  let fresh := next_handle (hass c) in
  (should_accept = 1 -> OnOffChannel._state (self c) <> Some true ->
     r.1 = inr tt /\ self r.2 = self c /\ bus (hass r.2) = bus (hass c) /\
     timers (hass r.2) = timers (hass c) /\
     next_handle (hass r.2) = next_handle (hass c)) /\
  (should_accept = 0 \/
   (should_accept = 1 /\ OnOffChannel._state (self c) = Some true) ->
     r.1 = inr tt /\
     OnOffChannel._state (self r.2) = Some true /\
     bus (hass r.2) = (bus (hass c) ++ [on_off_signal c (PBool true)])%list /\
     (0 < on_time ->
        OnOffChannel._off_listener (self r.2) = Some fresh /\
        timers (hass r.2) =
          (cancelled held (timers (hass c)) ++
           [mkTimer fresh (Q2Qc (on_time # 10)) set_to_off_cb])%list) /\
     (on_time <= 0 ->
        OnOffChannel._off_listener (self r.2) = None /\
        timers (hass r.2) = cancelled held (timers (hass c)))) /\
  Q2Qc (50 # 10) = Q2Qc 5.
Proof.
  intros Hcmd r held fresh. split; [|split].
  - intros -> Hoff.
    apply (on_with_timed_off_rejected c tsn command_id 1 on_time rest Hcmd).
    unfold accepted. cbn.
    destruct (OnOffChannel._state (self c)) as [[|]|]; cbn;
      [now contradiction Hoff|reflexivity|reflexivity].
  - intros Hacc.
    assert (accepted should_accept (OnOffChannel._state (self c)) = true)
      as Hacc'.
    { destruct Hacc as [-> | [-> ->]]; reflexivity. }
    destruct (on_with_timed_off_accepted c tsn command_id should_accept
                on_time rest Hcmd Hacc')
      as (Hret & _ & Hst & Hbus & Hpos & Hzero).
    repeat split; try assumption.
    + now apply Hpos.
    + now apply Hpos.
    + now apply Hzero.
    + now apply Hzero.
  - apply Qc_is_canon. reflexivity.
Qed.

Lemma on_with_timed_off_acceptance_witness :
  (OnOffChannel.cluster_command 3 66 [1; 0] Sample.onoff).1 = inr tt /\
  OnOffChannel._off_listener
    (self (OnOffChannel.cluster_command 3 66 [1; 50] Sample.onoff_on).2)
    = Some 0%nat /\
  timers (hass (OnOffChannel.cluster_command 3 66 [1; 50] Sample.onoff_on).2)
    = [mkTimer 0 (Q2Qc 5) set_to_off_cb].
Proof.
  split.
  - apply (proj1 (on_with_timed_off_acceptance Sample.onoff 3 66 1 0 []
                    ltac:(vm_compute; reflexivity)));
      [reflexivity|discriminate].
  - destruct (on_with_timed_off_acceptance Sample.onoff_on 3 66 1 50 []
                ltac:(vm_compute; reflexivity)) as (_ & Hacc & Hfive).
    destruct Hacc as (_ & _ & _ & Hpos & _);
      [right; split; reflexivity|].
    destruct (Hpos ltac:(lia)) as [Hl Ht].
    split; [exact Hl|]. rewrite Ht, Hfive. reflexivity.
Defined.

(** C9: a [toggle] received while the tracked state is unknown ([None])
    publishes the on/off update with value [True] and sets the state to
    on; the unknown state counts as off. *)
Theorem toggle_from_unknown_turns_on (c : Ctx OnOffChannel.t)
    (tsn command_id : Z) (args : list Z) :
  Base.command_name (server_commands (cluster (super (self c)))) command_id
    = "toggle" ->
  OnOffChannel._state (self c) = None ->
  let r := OnOffChannel.cluster_command tsn command_id args c in
  r.1 = inr tt /\
  OnOffChannel._state (self r.2) = Some true /\
  bus (hass r.2) = (bus (hass c) ++ [on_off_signal c (PBool true)])%list /\
  same_timers c r.2.
Proof.
  intros Hcmd Hst. unfold OnOffChannel.cluster_command, bind.
  rewrite parse_and_log_command_run, Hcmd. cbn. rewrite Hst. cbn.
  now repeat split.
Qed.

Lemma toggle_from_unknown_turns_on_witness :
  OnOffChannel._state
    (self (OnOffChannel.cluster_command 4 2 [] Sample.onoff).2) = Some true.
Proof.
  apply (toggle_from_unknown_turns_on Sample.onoff 4 2 []);
    [vm_compute|]; reflexivity.
Defined.

(** C10: on a channel in any reachable context, an accepted
    [on_with_timed_off] with [on_time = 0] cancels the auto-off that was
    pending, turns the state on and schedules nothing: afterwards the
    channel holds no handle and no callback is pending. *)
Theorem on_with_timed_off_zero_stays_on (c : Ctx OnOffChannel.t)
    (tsn command_id should_accept : Z) (rest : list Z) :
  reachable c ->
  Base.command_name (server_commands (cluster (super (self c)))) command_id
    = "on_with_timed_off" ->
  accepted should_accept (OnOffChannel._state (self c)) = true ->
  let r := OnOffChannel.cluster_command tsn command_id
             (should_accept :: 0 :: rest) c in
  r.1 = inr tt /\
  OnOffChannel._state (self r.2) = Some true /\
  bus (hass r.2) = (bus (hass c) ++ [on_off_signal c (PBool true)])%list /\
  OnOffChannel._off_listener (self r.2) = None /\
  timers (hass r.2) = [] /\
  next_handle (hass r.2) = next_handle (hass c).
Proof.
  intros Hreach Hcmd Hacc.
  destruct (on_with_timed_off_accepted c tsn command_id should_accept 0 rest
              Hcmd Hacc) as (Hret & _ & Hst & Hbus & _ & Hzero).
  destruct (Hzero (Z.le_refl 0)) as (Hl & Ht & Hn).
  rewrite cancelled_inv in Ht by now apply reachable_inv.
  now repeat split.
Qed.

Lemma timed_once_reachable : reachable timed_once.
Proof.
  apply reach_step.
  apply (reach_init (Sample.channel Sample.onoff_cluster
                                    OnOffChannel.REPORT_CONFIG) Sample.idle).
  reflexivity.
Qed.

Lemma on_with_timed_off_zero_stays_on_witness :
  pending timed_once = [0%nat] /\
  timers (hass (OnOffChannel.cluster_command 5 66 [1; 0] timed_once).2) = [].
Proof.
  split; [vm_compute; reflexivity|].
  apply (on_with_timed_off_zero_stays_on timed_once 5 66 1 []).
  - exact timed_once_reachable.
  - vm_compute; reflexivity.
  - vm_compute; reflexivity.
Defined.

(** C5: in every reachable context of an On/Off channel at most one
    auto-off callback is pending, and it is the one whose handle the
    channel holds.  An accepted [on_with_timed_off] removes every callback
    that was pending and leaves at most the one it schedules, so the
    earlier handle no longer fires anything; a callback that fires clears
    the handle, leaves the queue empty and switches the state off. *)
Theorem onoff_single_auto_off (c : Ctx OnOffChannel.t) :
  reachable c ->
  ((length (timers (hass c)) <= 1)%nat /\
   pending c = option_list (OnOffChannel._off_listener (self c))) /\
  (forall (tsn command_id should_accept on_time : Z) (rest : list Z),
      Base.command_name (server_commands (cluster (super (self c))))
                        command_id = "on_with_timed_off" ->
      accepted should_accept (OnOffChannel._state (self c)) = true ->
      let c' := step (Command tsn command_id
                              (should_accept :: on_time :: rest)) c in
      timers (hass c') =
        (if on_time >? 0
         then [mkTimer (next_handle (hass c)) (OnOffChannel.tenths on_time)
                       set_to_off_cb]
         else []) /\
      OnOffChannel._off_listener (self c') =
        (if on_time >? 0 then Some (next_handle (hass c)) else None) /\
      (forall n, n ∈ pending c ->
                 (n ∉ pending c') /\ step (TimerFired n) c' = c')) /\
  (forall n, n ∈ pending c ->
             let c' := step (TimerFired n) c in
             OnOffChannel._off_listener (self c') = None /\
             timers (hass c') = [] /\
             OnOffChannel._state (self c') = Some false).
Proof.
  intros Hreach. pose proof (reachable_inv c Hreach) as Hinv.
  split; [|split].
  - destruct Hinv as [Hp _]. split; [|exact Hp].
    unfold pending in Hp.
    rewrite <- (length_fmap timer_handle), Hp.
    destruct (OnOffChannel._off_listener (self c)); cbn; lia.
  - intros tsn command_id should_accept on_time rest Hcmd Hacc c'.
    destruct (on_with_timed_off_accepted c tsn command_id should_accept
                on_time rest Hcmd Hacc) as (_ & _ & _ & _ & Hpos & Hzero).
    assert (timers (hass c') =
              (if on_time >? 0
               then [mkTimer (next_handle (hass c))
                             (OnOffChannel.tenths on_time) set_to_off_cb]
               else []) /\
            OnOffChannel._off_listener (self c') =
              (if on_time >? 0 then Some (next_handle (hass c)) else None))
      as [Ht Hl].
    { subst c'. unfold step, handler.
      destruct (Z.gtb_spec on_time 0) as [Hb|Hb].
      - destruct (Hpos Hb) as (Hl & Ht & _).
        rewrite cancelled_inv in Ht by assumption. now split.
      - destruct (Hzero Hb) as (Hl & Ht & _).
        rewrite cancelled_inv in Ht by assumption. now split. }
    split; [exact Ht|]. split; [exact Hl|].
    intros n Hn.
    assert (n ∉ pending c') as Hgone.
    { unfold pending at 1. rewrite Ht.
      destruct (on_time >? 0); cbn; [|apply not_elem_of_nil].
      intros Hin. apply list_elem_of_singleton in Hin.
      destruct Hinv as [_ Hfresh].
      rewrite Forall_forall in Hfresh. specialize (Hfresh n Hn). lia. }
    split; [exact Hgone|].
    unfold step at 1, handler. now rewrite fire_not_pending.
  - intros n Hn c'.
    destruct (fire_pending n c Hinv Hn) as (_ & Hl & Ht & _ & Hst & _).
    now repeat split.
Qed.

Lemma onoff_single_auto_off_witness :
  pending timed_once = [0%nat] /\
  timers (hass timed_twice) =
    [mkTimer 1 (OnOffChannel.tenths 30) set_to_off_cb] /\
  step (TimerFired 0) timed_twice = timed_twice /\
  timers (hass (step (TimerFired 0) timed_once)) = [].
Proof.
  pose proof (onoff_single_auto_off timed_once timed_once_reachable)
    as [[_ Hp] [Hcmd Hfire]].
  assert (0%nat ∈ pending timed_once) as Hin.
  { vm_compute. apply list_elem_of_here. }
  destruct (Hcmd 2 66 1 30 [] ltac:(vm_compute; reflexivity)
                 ltac:(vm_compute; reflexivity)) as (Ht & _ & Hold).
  split; [exact Hp|]. split; [exact Ht|].
  split; [exact (proj2 (Hold 0%nat Hin))|].
  exact (proj1 (proj2 (Hfire 0%nat Hin))).
Defined.

(** ** Power Configuration *)

(** One report, one signal: which kind depends on whether the reported id
    is the one the entry at index 1 of the report configuration resolves
    to. *)
Lemma power_attribute_updated_run (c : Ctx PowerConfigurationChannel.t)
    (attrid : Z) (value : pyval) (entry : ReportConfigEntry) :
  _report_config (super (self c)) !! 1%nat = Some entry ->
  let b := super (self c) in
  let primary := Base.resolve_attr (cluster b) (attr entry) in
  let name := PowerConfigurationChannel.attribute_name (cluster b) attrid in
  PowerConfigurationChannel.attribute_updated attrid value c =
    (inr tt,
     published
       (if PowerConfigurationChannel.same_id attrid primary
        then mkSignal (Suffixed (unique_id b) SIGNAL_ATTR_UPDATED)
                      [PInt attrid; name; value]
        else mkSignal (Suffixed (unique_id b) SIGNAL_STATE_ATTR)
                      [name; value])
       c).
Proof.
  intros Hentry b primary name.
  unfold PowerConfigurationChannel.attribute_updated, bind, gets, getitem.
  cbv beta iota zeta. rewrite Hentry. fold b. cbn [ret].
  unfold Base.resolve_attr in primary.
  assert (match attr entry with
          | AttrName name0 => attridx (cluster b) !! name0
          | AttrId i => Some i
          end = primary) as -> by (subst primary; now destruct (attr entry)).
  fold name. now destruct (PowerConfigurationChannel.same_id attrid primary).
Qed.

(** C4: with the declared report configuration, every attribute report
    publishes exactly one signal; it is of the "attribute updated" kind
    exactly when the reported id is the id of
    [battery_percentage_remaining] (the attribute at index 1), and of the
    "state attribute" kind exactly when it is not. *)
Theorem power_report_emits_one_kind (c : Ctx PowerConfigurationChannel.t)
    (attrid : Z) (value : pyval) :
  _report_config (super (self c)) = PowerConfigurationChannel.REPORT_CONFIG ->
  let b := super (self c) in
  let r := PowerConfigurationChannel.attribute_updated attrid value c in
  let primary := attridx (cluster b) !! "battery_percentage_remaining" in
  attr <$> PowerConfigurationChannel.REPORT_CONFIG !! 1%nat
    = Some (AttrName "battery_percentage_remaining") /\
  r.1 = inr tt /\
  exists (kind : SignalConst) (payload : list pyval),
    bus (hass r.2) =
      (bus (hass c) ++ [mkSignal (Suffixed (unique_id b) kind) payload])%list /\
    (kind = SIGNAL_ATTR_UPDATED <-> primary = Some attrid) /\
    (kind = SIGNAL_STATE_ATTR <-> primary <> Some attrid).
Proof.
  intros Hrc b r primary. split; [reflexivity|].
  subst r.
  rewrite (power_attribute_updated_run c attrid value
             (mkEntry (AttrName "battery_percentage_remaining")
                      REPORT_CONFIG_BATTERY_SAVE))
    by (rewrite Hrc; reflexivity).
  split; [reflexivity|]. cbn [attr Base.resolve_attr]. fold b primary.
  destruct primary as [i|] eqn:Hprimary; cbn [PowerConfigurationChannel.same_id].
  - destruct (Z.eqb_spec attrid i) as [->|Hne].
    + eexists _, _. split; [reflexivity|]. split; split; intros H;
        try reflexivity; try discriminate; now contradiction H.
    + eexists _, _. split; [reflexivity|]. split; split; intros H;
        try reflexivity; try discriminate; congruence.
  - eexists _, _. split; [reflexivity|]. split; split; intros H;
      try reflexivity; try discriminate.
Qed.

Lemma power_report_emits_one_kind_witness :
  exists (kind : SignalConst) (payload : list pyval),
    bus (hass (PowerConfigurationChannel.attribute_updated
                 33 (PInt 180) Sample.power).2) =
      [mkSignal (Suffixed (unique_id (super (self Sample.power))) kind)
                payload] /\
    (kind = SIGNAL_ATTR_UPDATED <->
     attridx Sample.power_cluster !! "battery_percentage_remaining" = Some 33) /\
    (kind = SIGNAL_STATE_ATTR <->
     attridx Sample.power_cluster !! "battery_percentage_remaining" <> Some 33).
Proof.
  apply (power_report_emits_one_kind Sample.power 33 (PInt 180)).
  reflexivity.
Defined.

(** ** Poll Control *)

Lemma base_async_configure_run {C} `{IsChannel C} (c : Ctx C) :
  let r := Base.async_configure c in
  r.1 = inr tt /\
  self r.2 = self c /\
  (exists l, log (hass r.2) = (log (hass c) ++ l)%list) /\
  calls (hass r.2) =
    (calls (hass c) ++
     [CallBind;
      CallConfigureReporting (attr <$> _report_config (super (self c)))])%list.
Proof.
  unfold Base.async_configure, bind, gets, record_call, Base.debug, on_hass,
    modify.
  cbv beta iota zeta.
  destruct (bind_cluster _), (configure_reporting _ _); cbn;
    (split; [reflexivity|]); (split; [reflexivity|]);
    rewrite <- !app_assoc; (split; [eexists; reflexivity|reflexivity]).
Qed.

(** C6: when the write of the check-in interval fails with a timeout or a
    Zigbee exception, [async_configure] logs the failure and goes on with
    the base configuration step, run on the context the logging left; the
    cluster sees the write, then the bind and the report configuration;
    nothing is raised to the caller. *)
Theorem poll_configure_survives_write_failure (c : Ctx PollControl.t)
    (e : exn) :
  write_attributes (cluster (super (self c)))
                   [("checkin_interval", PollControl.CHECKIN_INTERVAL)]
    = inl e ->
  e = TimeoutError \/ e = ZigbeeException ->
  let r := PollControl.async_configure c in
  let attempt := CallWriteAttributes [("checkin_interval", 13200)] in
  let failure := mkLog "Couldn't set check-in interval: %s" [PExc e] in
  r.1 = inr tt /\
  failure ∈ log (hass r.2) /\
  r = Base.async_configure
        (logged (log_msg failure) (log_args failure) (called attempt c)) /\
  calls (hass r.2) =
    (calls (hass c) ++
     [attempt; CallBind;
      CallConfigureReporting (attr <$> _report_config (super (self c)))])%list.
Proof.
  intros Hwrite He r attempt failure.
  assert (r = Base.async_configure
                (logged (log_msg failure) (log_args failure)
                        (called attempt c))) as Hr.
  { subst r. unfold PollControl.async_configure, try_except,
      PollControl.cluster_write_attributes, bind, gets, record_call, on_hass,
      modify.
    cbv beta iota zeta. cbn [self hass]. rewrite Hwrite.
    destruct He as [-> | ->]; reflexivity. }
  destruct (base_async_configure_run
              (logged (log_msg failure) (log_args failure) (called attempt c)))
    as (Hret & _ & [l Hlog] & Hcalls).
  rewrite <- Hr in Hret, Hlog, Hcalls.
  split; [exact Hret|]. split; [|split; [exact Hr|]].
  - rewrite Hlog. cbn. rewrite <- app_assoc.
    apply elem_of_app. right. apply list_elem_of_here.
  - rewrite Hcalls. cbn. now rewrite <- app_assoc.
Qed.

Lemma poll_configure_survives_write_failure_witness :
  (PollControl.async_configure Sample.poll).1 = inr tt /\
  calls (hass (PollControl.async_configure Sample.poll).2) =
    [CallWriteAttributes [("checkin_interval", 13200)]; CallBind;
     CallConfigureReporting []].
Proof.
  pose proof (poll_configure_survives_write_failure Sample.poll TimeoutError
                eq_refl (or_introl eq_refl)) as (Hret & _ & _ & Hcalls).
  split; [exact Hret|exact Hcalls].
Defined.

(** ** On/Off refresh *)

Lemma get_attribute_value_run (a : AttrRef) (from_cache : bool)
    (c : Ctx OnOffChannel.t) :
  let r := Base.get_attribute_value a from_cache c in
  exists (v : pyval) (io : list Call),
    r.1 = inr v /\
    calls (hass r.2) = (calls (hass c) ++ CallGet a from_cache :: io)%list /\
    (io = [] \/ io = [CallReadAttributes a from_cache]) /\
    (from_cache = false ->
       io = [CallReadAttributes a false] /\
       v = match read_attributes (cluster (super (self c))) a false with
           | inr v' => v'
           | inl _ => PNone
           end) /\
    OnOffChannel._state (self r.2) = OnOffChannel._state (self c) /\
    OnOffChannel._off_listener (self r.2)
      = OnOffChannel._off_listener (self c).
Proof.
  unfold Base.get_attribute_value, Base.cache_put, Base.debug, bind,
    record_call, on_self, on_hass, modify, gets, ret.
  cbv beta iota.
  destruct c as [[b st l] h]. cbn.
  destruct from_cache.
  - destruct (Base.resolve_attr (cluster b) a ≫= _) as [v|].
    + exists v, []. cbn. repeat split; auto; discriminate.
    + destruct (read_attributes (cluster b) a true) as [e|v]; cbn.
      * exists PNone, [CallReadAttributes a true]. cbn.
        rewrite <- app_assoc. repeat split; auto; discriminate.
      * exists v, [CallReadAttributes a true].
        destruct v; cbn; destruct (Base.resolve_attr (cluster b) a); cbn;
          rewrite <- app_assoc; repeat split; auto; discriminate.
  - destruct (read_attributes (cluster b) a false) as [e|v]; cbn.
    + exists PNone, [CallReadAttributes a false]. cbn.
      rewrite <- app_assoc. repeat split; auto.
    + exists v, [CallReadAttributes a false].
      destruct v; cbn; destruct (Base.resolve_attr (cluster b) a); cbn;
        rewrite <- app_assoc; repeat split; auto.
Qed.

(** C8 (amended): on a client cluster [async_update] returns at once and
    reads nothing.  On a server cluster it asks for [on_off] once, with
    [from_cache] false exactly when the device is mains-powered (and then
    the cluster is read live) and true otherwise, and it replaces the
    tracked state by the truth value of the answer only when the answer is
    not [None]. *)
Theorem onoff_update_cache_policy (c : Ctx OnOffChannel.t) :
  let b := super (self c) in
  let r := OnOffChannel.async_update c in
  let from_cache := negb (is_mains_powered (_ch_pool b)) in
  let query := CallGet (AttrId OnOffChannel.ON_OFF) from_cache in
  let live := CallReadAttributes (AttrId OnOffChannel.ON_OFF) from_cache in
  (is_client (cluster b) = true -> r = (inr tt, c)) /\
  (is_client (cluster b) = false ->
     r.1 = inr tt /\
     (from_cache = false <-> is_mains_powered (_ch_pool b) = true) /\
     exists (v : pyval) (io : list Call),
       (Base.get_attribute_value
          (AttrId OnOffChannel.ON_OFF) from_cache
          (logged "attempting to update onoff state - from cache: %s"
                  [PBool from_cache] c)).1 = inr v /\
       calls (hass r.2) = (calls (hass c) ++ query :: io)%list /\
       (io = [] \/ io = [live]) /\
       (is_mains_powered (_ch_pool b) = true ->
          io = [live] /\
          v = match read_attributes (cluster b)
                      (AttrId OnOffChannel.ON_OFF) false with
              | inr v' => v'
              | inl _ => PNone
              end) /\
       OnOffChannel._state (self r.2) =
         match v with
         | PNone => OnOffChannel._state (self c)
         | _ => Some (truthy v)
         end).
Proof.
  intros b r from_cache query live. split.
  - intros Hclient. subst r. unfold OnOffChannel.async_update, bind, gets.
    cbv beta iota zeta. fold b. now rewrite Hclient.
  - intros Hserver.
    assert (from_cache = false <-> is_mains_powered (_ch_pool b) = true)
      as Hflag by (subst from_cache; destruct (is_mains_powered _); cbn; intuition congruence).
    subst r. unfold OnOffChannel.async_update, bind, gets.
    cbv beta iota zeta. fold b. rewrite Hserver. fold from_cache.
    unfold Base.debug, on_hass, modify, logged. cbv beta iota.
    match goal with
    | |- context [Base.get_attribute_value ?a ?f ?c'] =>
        destruct (get_attribute_value_run a f c')
          as (v & io & Hv & Hcalls & Hio & Hlive & Hst & _);
        destruct (Base.get_attribute_value a f c') as [[x|v'] c1];
        cbn [fst snd] in Hv, Hcalls, Hst
    end; [discriminate|].
    injection Hv as ->. cbn in Hcalls, Hst, Hlive.
    split; [now destruct v|]. split; [exact Hflag|].
    exists v, io. fold query live in Hcalls, Hio.
    split; [reflexivity|].
    split; [now destruct v|]. split; [exact Hio|]. split.
    + intros Hmains. apply Hflag in Hmains.
      destruct (Hlive Hmains) as [Hio' Hval].
      subst live. rewrite Hmains. now split.
    + now destruct v.
Qed.

Lemma onoff_update_cache_policy_witness :
  OnOffChannel.async_update Sample.onoff_client = (inr tt, Sample.onoff_client)
  /\ (OnOffChannel.async_update Sample.onoff).1 = inr tt.
Proof.
  split.
  - apply (proj1 (onoff_update_cache_policy Sample.onoff_client)).
    reflexivity.
  - apply (proj2 (onoff_update_cache_policy Sample.onoff)).
    reflexivity.
Defined.

(** C8 (as stated, refuted): the client-side channel of [Sample.onoff_client]
    sits on a mains-powered device, yet its [async_update] issues no read at
    all; so it is not the case that every On/Off channel reads [on_off] on
    update with the cache flag set by the power source. *)
Lemma onoff_update_client_reads_nothing :
  (is_mains_powered (_ch_pool (super (self Sample.onoff_client))) = true /\
   calls (hass (OnOffChannel.async_update Sample.onoff_client).2) = []) /\
  ~ (forall c : Ctx OnOffChannel.t,
        CallGet (AttrId OnOffChannel.ON_OFF)
                (negb (is_mains_powered (_ch_pool (super (self c)))))
          ∈ calls (hass (OnOffChannel.async_update c).2)).
Proof.
  split; [split; reflexivity|].
  intros Hclaim. specialize (Hclaim Sample.onoff_client).
  vm_compute in Hclaim. now apply not_elem_of_nil in Hclaim.
Qed.

(** ** Level Control: every command and report *)

Ltac case_names cmd :=
  unfold level_arity, str_in, existsb in *;
  repeat match goal with
         | |- context [String.eqb cmd ?s] =>
             let E := fresh "E" in
             destruct (String.eqb cmd s) eqn:E; rewrite ?E in *
         | H : context [String.eqb cmd ?s] |- _ =>
             lazymatch type of H with
             | String.eqb _ _ = _ => fail
             | _ =>
                 let E := fresh "E" in
                 destruct (String.eqb cmd s) eqn:E; rewrite ?E in *
             end
         end;
  cbn [orb negb] in *.

Ltac level_unfold cmd :=
  unfold LevelControlChannel.cluster_command, bind;
  rewrite parse_and_log_command_run; cbv beta iota zeta;
  match goal with
  | |- context [Base.command_name ?t ?i] =>
      set (cmd := Base.command_name t i) in *
  end.

(** X1: A report of [current_level] and a [move_to_level] command publish the
    same "set level" signal; a report of any other attribute publishes
    nothing. *)
Theorem level_report_matches_move_to_level (c : Ctx LevelControlChannel.t)
    (tsn command_id level : Z) (rest : list Z) :
  let cmd := Base.command_name (server_commands (cluster (super (self c))))
                               command_id in
  cmd = "move_to_level" \/ cmd = "move_to_level_with_on_off" ->
  let by_command :=
    LevelControlChannel.cluster_command tsn command_id (level :: rest) c in
  let by_report :=
    LevelControlChannel.attribute_updated LevelControlChannel.CURRENT_LEVEL
                                          (PInt level) c in
  by_command.1 = inr tt /\ by_report.1 = inr tt /\
  bus (hass by_command.2) = bus (hass by_report.2) /\
  bus (hass by_report.2) =
    (bus (hass c) ++
     [mkSignal (Suffixed (unique_id (super (self c))) SIGNAL_SET_LEVEL)
               [PInt level]])%list /\
  (forall (attrid : Z) (value : pyval),
      attrid <> LevelControlChannel.CURRENT_LEVEL ->
      bus (hass (LevelControlChannel.attribute_updated attrid value c).2)
        = bus (hass c)).
Proof.
  intros cmd Hcmd by_command by_report.
  assert (by_command.1 = inr tt /\
          bus (hass by_command.2) =
            (bus (hass c) ++
             [mkSignal (Suffixed (unique_id (super (self c))) SIGNAL_SET_LEVEL)
                       [PInt level]])%list) as [Hret Hbus].
  { subst by_command. unfold LevelControlChannel.cluster_command, bind.
    rewrite parse_and_log_command_run. fold cmd.
    destruct Hcmd as [-> | ->]; cbn; auto. }
  repeat split; try assumption; try reflexivity.
  intros attrid value Hne. unfold LevelControlChannel.attribute_updated, bind.
  cbn. destruct (Z.eqb_spec attrid LevelControlChannel.CURRENT_LEVEL);
    [contradiction|reflexivity].
Qed.

Lemma level_report_matches_move_to_level_witness :
  bus (hass (LevelControlChannel.cluster_command 3 4 [128; 10] Sample.level).2)
  = bus (hass (LevelControlChannel.attribute_updated 0 (PInt 128)
                 Sample.level).2).
Proof.
  apply (level_report_matches_move_to_level Sample.level 3 4 128 [10]).
  right. vm_compute. reflexivity.
Defined.

(** X2: [step] and [step_with_on_off] publish the step size, negated when the
    mode is not zero; no mode value selects a default size. *)
Theorem level_step_signed (c : Ctx LevelControlChannel.t)
    (tsn command_id mode size : Z) (rest : list Z) :
  let cmd := Base.command_name (server_commands (cluster (super (self c))))
                               command_id in
  cmd = "step" \/ cmd = "step_with_on_off" ->
  let r := LevelControlChannel.cluster_command tsn command_id
             (mode :: size :: rest) c in
  r.1 = inr tt /\
  bus (hass r.2) =
    (bus (hass c) ++
     [mkSignal (Suffixed (unique_id (super (self c))) SIGNAL_MOVE_LEVEL)
               [PInt (if mode =? 0 then size else - size)]])%list.
Proof.
  intros cmd Hcmd. unfold LevelControlChannel.cluster_command, bind.
  rewrite parse_and_log_command_run. fold cmd.
  destruct Hcmd as [-> | ->]; cbn; destruct (mode =? 0); auto.
Qed.

Lemma level_step_signed_witness :
  bus (hass (LevelControlChannel.cluster_command 3 2 [255; 40; 0]
               Sample.level).2) =
    [mkSignal (Suffixed (unique_id (super (self Sample.level)))
                        SIGNAL_MOVE_LEVEL) [PInt (-40)]].
Proof.
  apply (level_step_signed Sample.level 3 2 255 40 [0]).
  left. vm_compute. reflexivity.
Defined.

(** X3: A Level Control command that carries fewer arguments than its handler
    reads raises [IndexError]; apart from the debug record of the parser
    nothing changes and nothing is published. *)
Theorem level_short_args_raise (c : Ctx LevelControlChannel.t)
    (tsn command_id : Z) (args : list Z) (n : nat) :
  let cl := cluster (super (self c)) in
  let cmd := Base.command_name (server_commands cl) command_id in
  level_arity cmd = Some n ->
  (length args < n)%nat ->
  LevelControlChannel.cluster_command tsn command_id args c =
    (inl IndexError,
     logged Base.received_msg
            ([PStr cmd] ++ (PInt <$> args) ++ [PInt (cluster_id cl); PInt tsn])%list
            c).
Proof.
  intros cl cmd Harity Hlen. subst cmd cl. level_unfold cmd.
  case_names cmd; try discriminate;
    injection Harity as <-;
    destruct args as [|a [|b rest]]; cbn in Hlen; try lia; reflexivity.
Qed.

Lemma level_short_args_raise_witness :
  (LevelControlChannel.cluster_command 3 1 [1] Sample.level).1
    = inl IndexError.
Proof.
  rewrite (level_short_args_raise Sample.level 3 1 [1] 2).
  - reflexivity.
  - vm_compute. reflexivity.
  - simpl. lia.
Defined.

(** X4: A command whose name is none of the six Level Control reacts to is
    ignored whatever its arguments: the handler returns, publishes nothing
    and leaves only the parser's debug record. *)
Theorem level_unknown_command_ignored (c : Ctx LevelControlChannel.t)
    (tsn command_id : Z) (args : list Z) :
  let cl := cluster (super (self c)) in
  let cmd := Base.command_name (server_commands cl) command_id in
  level_arity cmd = None ->
  LevelControlChannel.cluster_command tsn command_id args c =
    (inr tt,
     logged Base.received_msg
            ([PStr cmd] ++ (PInt <$> args) ++ [PInt (cluster_id cl); PInt tsn])%list
            c).
Proof.
  intros cl cmd Harity. subst cmd cl. level_unfold cmd.
  case_names cmd; try discriminate; reflexivity.
Qed.

Lemma level_unknown_command_ignored_witness :
  bus (hass (LevelControlChannel.cluster_command 3 3 [] Sample.level).2) = []
  /\ bus (hass (LevelControlChannel.cluster_command 3 99 [] Sample.level).2)
     = [].
Proof.
  split.
  - rewrite (level_unknown_command_ignored Sample.level 3 3 []);
      [reflexivity|vm_compute; reflexivity].
  - rewrite (level_unknown_command_ignored Sample.level 3 99 []);
      [reflexivity|vm_compute; reflexivity].
Defined.

(** X5: Level Control keeps no state of its own: whatever the command and its
    arguments, the channel object and the timer queue are left as they
    were, and the bus grows by at most one signal, a "set level" or "move
    level" signal of this channel carrying one integer. *)
Theorem level_command_at_most_one_signal (c : Ctx LevelControlChannel.t)
    (tsn command_id : Z) (args : list Z) :
  let r := LevelControlChannel.cluster_command tsn command_id args c in
  self r.2 = self c /\
  timers (hass r.2) = timers (hass c) /\
  (bus (hass r.2) = bus (hass c) \/
   exists (kind : SignalConst) (level : Z),
     level_kind kind /\ r.1 = inr tt /\
     bus (hass r.2) =
       (bus (hass c) ++
        [mkSignal (Suffixed (unique_id (super (self c))) kind)
                  [PInt level]])%list).
Proof.
  level_unfold cmd. unfold level_kind.
  case_names cmd;
    destruct args as [|a [|b rest]]; cbn;
    (split; [reflexivity|]); (split; [reflexivity|]);
    first [left; reflexivity
          |right; eexists _, _; split; [|split; reflexivity]; auto].
Qed.

(** ** On/Off: every command, report and refresh *)

Ltac onoff_unfold cmd :=
  unfold OnOffChannel.cluster_command, bind;
  rewrite parse_and_log_command_run; cbv beta iota zeta;
  match goal with
  | |- context [Base.command_name ?t ?i] =>
      set (cmd := Base.command_name t i) in *
  end.

(** X6: [off] and [off_with_effect] publish [False] and record the state as
    off, [on] and [on_with_recall_global_scene] publish [True] and record
    it as on; they read no argument, so they return whatever the argument
    list, and they leave the auto-off handle and queue alone. *)
Theorem onoff_plain_commands (c : Ctx OnOffChannel.t) (tsn command_id : Z)
    (args : list Z) (target : bool) :
  let cmd := Base.command_name (server_commands (cluster (super (self c))))
                               command_id in
  (if target then cmd = "on" \/ cmd = "on_with_recall_global_scene"
   else cmd = "off" \/ cmd = "off_with_effect") ->
  let r := OnOffChannel.cluster_command tsn command_id args c in
  r.1 = inr tt /\
  OnOffChannel._state (self r.2) = Some target /\
  bus (hass r.2) = (bus (hass c) ++ [on_off_signal c (PBool target)])%list /\
  same_timers c r.2.
Proof.
  intros cmd Hcmd. unfold OnOffChannel.cluster_command, bind.
  rewrite parse_and_log_command_run. fold cmd.
  destruct target; destruct Hcmd as [-> | ->]; cbn; now repeat split.
Qed.

Lemma onoff_plain_commands_witness :
  OnOffChannel._state
    (self (OnOffChannel.cluster_command 4 64 [] Sample.onoff_on).2)
    = Some false /\
  pending (step (Command 4 0 []) timed_once) = [0%nat].
Proof.
  split.
  - apply (onoff_plain_commands Sample.onoff_on 4 64 [] false).
    right. vm_compute. reflexivity.
  - destruct (onoff_plain_commands timed_once 4 0 [] false)
      as (_ & _ & _ & Hsame); [left; vm_compute; reflexivity|].
    destruct Hsame as (_ & Ht & _).
    unfold pending, step, handler. rewrite Ht. vm_compute. reflexivity.
Defined.

(** X7: Only [on_with_timed_off] can raise or touch the auto-off timer: any
    other command, known or not and with any arguments, returns and leaves
    the held handle, the queue and the handle counter as they were.  In
    particular [off] does not cancel a pending auto-off. *)
Theorem onoff_other_commands_keep_timer (c : Ctx OnOffChannel.t)
    (tsn command_id : Z) (args : list Z) :
  Base.command_name (server_commands (cluster (super (self c)))) command_id
    <> "on_with_timed_off" ->
  let r := OnOffChannel.cluster_command tsn command_id args c in
  r.1 = inr tt /\ same_timers c r.2.
Proof.
  intros Hne. onoff_unfold cmd.
  destruct (String.eqb_spec cmd "on_with_timed_off") as [Heq|_];
    [contradiction|].
  case_names cmd; unfold gets; cbn; now repeat split.
Qed.

Lemma onoff_other_commands_keep_timer_witness :
  same_timers timed_once (step (Command 4 2 []) timed_once).
Proof.
  apply (onoff_other_commands_keep_timer timed_once 4 2 []).
  vm_compute. discriminate.
Defined.

(** X8: [toggle] publishes and records the negation of the tracked state, so
    two toggles in a row bring a known state back and publish the two
    opposite values in turn. *)
Theorem onoff_toggle_twice (c : Ctx OnOffChannel.t)
    (tsn tsn' command_id : Z) (args args' : list Z) (b : bool) :
  Base.command_name (server_commands (cluster (super (self c)))) command_id
    = "toggle" ->
  OnOffChannel._state (self c) = Some b ->
  let c1 := step (Command tsn command_id args) c in
  let c2 := step (Command tsn' command_id args') c1 in
  OnOffChannel._state (self c1) = Some (negb b) /\
  OnOffChannel._state (self c2) = Some b /\
  bus (hass c2) =
    (bus (hass c) ++
     [on_off_signal c (PBool (negb b)); on_off_signal c (PBool b)])%list.
Proof.
  intros Hcmd Hst c1 c2.
  assert (forall (c0 : Ctx OnOffChannel.t) (t : Z) (a : list Z) (b0 : bool),
             Base.command_name (server_commands (cluster (super (self c0))))
                               command_id = "toggle" ->
             OnOffChannel._state (self c0) = Some b0 ->
             let c' := step (Command t command_id a) c0 in
             OnOffChannel.zigbee (self c') = OnOffChannel.zigbee (self c0) /\
             OnOffChannel._state (self c') = Some (negb b0) /\
             bus (hass c') =
               (bus (hass c0) ++ [on_off_signal c0 (PBool (negb b0))])%list)
    as Hone.
  { intros c0 t a b0 H0 Hb. unfold step, handler.
    unfold OnOffChannel.cluster_command, bind.
    rewrite parse_and_log_command_run, H0. cbn. rewrite Hb. cbn.
    now repeat split. }
  destruct (Hone c tsn args b Hcmd Hst) as (Hz1 & Hs1 & Hb1). fold c1 in Hz1, Hs1, Hb1.
  assert (Base.command_name (server_commands (cluster (super (self c1))))
                            command_id = "toggle") as Hcmd1.
  { cbn. rewrite Hz1. exact Hcmd. }
  destruct (Hone c1 tsn' args' (negb b) Hcmd1 Hs1) as (_ & Hs2 & Hb2).
  fold c2 in Hs2, Hb2. rewrite negb_involutive in Hs2, Hb2.
  split; [exact Hs1|]. split; [exact Hs2|].
  rewrite Hb2, Hb1, <- app_assoc. unfold on_off_signal. cbn. now rewrite Hz1.
Qed.

Lemma onoff_toggle_twice_witness :
  OnOffChannel._state
    (self (step (Command 5 2 []) (step (Command 4 2 []) Sample.onoff_on)))
    = Some true.
Proof.
  apply (onoff_toggle_twice Sample.onoff_on 4 5 2 [] [] true);
    [vm_compute|]; reflexivity.
Defined.

(** X9: An [on_with_timed_off] whose accept flag is neither 0 nor 1 is dropped
    whatever the tracked state: nothing is published, the state is kept
    and nothing is scheduled or cancelled. *)
Theorem onoff_timed_off_unknown_flag_dropped (c : Ctx OnOffChannel.t)
    (tsn command_id should_accept on_time : Z) (rest : list Z) :
  Base.command_name (server_commands (cluster (super (self c)))) command_id
    = "on_with_timed_off" ->
  should_accept <> 0 -> should_accept <> 1 ->
  let r := OnOffChannel.cluster_command tsn command_id
             (should_accept :: on_time :: rest) c in
  r.1 = inr tt /\ self r.2 = self c /\ bus (hass r.2) = bus (hass c) /\
  timers (hass r.2) = timers (hass c).
Proof.
  intros Hcmd H0 H1.
  destruct (on_with_timed_off_rejected c tsn command_id should_accept on_time
              rest Hcmd) as (Hret & Hself & Hbus & Ht & _).
  - unfold accepted.
    destruct (Z.eqb_spec should_accept 0); [contradiction|].
    destruct (Z.eqb_spec should_accept 1); [contradiction|]. reflexivity.
  - now repeat split.
Qed.

Lemma onoff_timed_off_unknown_flag_dropped_witness :
  self (OnOffChannel.cluster_command 6 66 [2; 50] Sample.onoff_on).2
    = self Sample.onoff_on.
Proof.
  apply (onoff_timed_off_unknown_flag_dropped Sample.onoff_on 6 66 2 50 []);
    [vm_compute; reflexivity|lia|lia].
Defined.

(** X10: An [on_with_timed_off] with fewer than two arguments raises
    [IndexError] before anything is done: the state, the bus and a pending
    auto-off are all left as they were. *)
Theorem onoff_timed_off_short_args_raise (c : Ctx OnOffChannel.t)
    (tsn command_id : Z) (args : list Z) :
  let cl := cluster (super (self c)) in
  Base.command_name (server_commands cl) command_id = "on_with_timed_off" ->
  (length args < 2)%nat ->
  OnOffChannel.cluster_command tsn command_id args c =
    (inl IndexError,
     logged Base.received_msg
            ([PStr "on_with_timed_off"] ++ (PInt <$> args) ++
             [PInt (cluster_id cl); PInt tsn])%list
            c).
Proof.
  intros cl Hcmd Hlen. subst cl. unfold OnOffChannel.cluster_command, bind.
  rewrite parse_and_log_command_run, Hcmd.
  destruct args as [|a [|b rest]]; cbn in Hlen; try lia; reflexivity.
Qed.

Lemma onoff_timed_off_short_args_raise_witness :
  (OnOffChannel.cluster_command 6 66 [0] timed_once).1 = inl IndexError /\
  pending (OnOffChannel.cluster_command 6 66 [0] timed_once).2 = [0%nat].
Proof.
  rewrite (onoff_timed_off_short_args_raise timed_once 6 66 [0]).
  - split; vm_compute; reflexivity.
  - vm_compute. reflexivity.
  - simpl. lia.
Defined.

(** X11: The whole auto-off cycle: in a reachable context, an accepted
    [on_with_timed_off] with a positive time followed by the firing of the
    callback it scheduled publishes [True] then [False], ends with the
    state off, and leaves no handle and no pending callback behind. *)
Theorem onoff_auto_off_cycle (c : Ctx OnOffChannel.t)
    (tsn command_id should_accept on_time : Z) (rest : list Z) :
  reachable c ->
  Base.command_name (server_commands (cluster (super (self c)))) command_id
    = "on_with_timed_off" ->
  accepted should_accept (OnOffChannel._state (self c)) = true ->
  0 < on_time ->
  let c1 := step (Command tsn command_id (should_accept :: on_time :: rest))
                 c in
  let c2 := step (TimerFired (next_handle (hass c))) c1 in
  OnOffChannel._state (self c1) = Some true /\
  OnOffChannel._state (self c2) = Some false /\
  OnOffChannel._off_listener (self c2) = None /\
  timers (hass c2) = [] /\
  bus (hass c2) =
    (bus (hass c) ++
     [on_off_signal c (PBool true); on_off_signal c (PBool false)])%list.
Proof.
  intros Hreach Hcmd Hacc Hpos c1 c2.
  pose proof (reachable_inv c Hreach) as Hinv.
  destruct (on_with_timed_off_accepted c tsn command_id should_accept on_time
              rest Hcmd Hacc) as (_ & Hz & Hst & Hbus & Hsched & _).
  destruct (Hsched Hpos) as (Hl & Ht & _).
  rewrite cancelled_inv in Ht by assumption.
  fold (handler (Command tsn command_id (should_accept :: on_time :: rest)))
    in Hz, Hst, Hbus, Hl, Ht.
  fold (step (Command tsn command_id (should_accept :: on_time :: rest)) c)
    in Hz, Hst, Hbus, Hl, Ht.
  fold c1 in Hz, Hst, Hbus, Hl, Ht.
  assert (timer_inv c1) as Hinv1 by (apply step_inv, Hinv).
  assert (next_handle (hass c) ∈ pending c1) as Hin.
  { unfold pending. rewrite Ht. cbn. apply list_elem_of_here. }
  destruct (fire_pending _ c1 Hinv1 Hin) as (_ & Hl2 & Ht2 & _ & Hst2 & Hbus2).
  fold (handler (TimerFired (next_handle (hass c)))) in Hl2, Ht2, Hst2, Hbus2.
  fold (step (TimerFired (next_handle (hass c))) c1) in Hl2, Ht2, Hst2, Hbus2.
  fold c2 in Hl2, Ht2, Hst2, Hbus2.
  repeat split; try assumption.
  rewrite Hbus2, Hbus, <- app_assoc. unfold on_off_signal. cbn.
  now rewrite Hz.
Qed.

Lemma onoff_auto_off_cycle_witness :
  OnOffChannel._state
    (self (step (TimerFired 1) (step (Command 7 66 [1; 20]) timed_once)))
    = Some false.
Proof.
  apply (onoff_auto_off_cycle timed_once 7 66 1 20 []).
  - exact timed_once_reachable.
  - vm_compute. reflexivity.
  - vm_compute. reflexivity.
  - lia.
Defined.

Lemma get_attribute_value_quiet (a : AttrRef) (from_cache : bool)
    (c : Ctx OnOffChannel.t) :
  let r := Base.get_attribute_value a from_cache c in
  (exists v, r.1 = inr v) /\
  bus (hass r.2) = bus (hass c) /\
  OnOffChannel._state (self r.2) = OnOffChannel._state (self c).
Proof.
  unfold Base.get_attribute_value, Base.cache_put, bind, record_call,
    on_self, on_hass, modify, gets, ret.
  cbv beta iota.
  repeat (break_match; cbn);
    (split; [eexists; reflexivity|now split]).
Qed.

Lemma populate_quiet (from_cache : bool) (l : list ReportConfigEntry)
    (c : Ctx OnOffChannel.t) :
  let r := foldr (fun e k => Base.get_attribute_value (attr e) from_cache ;;; k)
                 (ret tt) l c in
  r.1 = inr tt /\
  bus (hass r.2) = bus (hass c) /\
  OnOffChannel._state (self r.2) = OnOffChannel._state (self c).
Proof.
  revert c. induction l as [|e l IH]; intros c; cbn [foldr].
  - now repeat split.
  - destruct (get_attribute_value_quiet (attr e) from_cache c)
      as ([v Hv] & Hbus & Hst).
    set (rest := foldr _ _ l) in *. unfold bind.
    destruct (Base.get_attribute_value (attr e) from_cache c) as [[x|v'] c1];
      cbn [fst snd] in Hv, Hbus, Hst.
    + discriminate.
    + destruct (IH c1) as (Hret & Hbus' & Hst').
      split; [exact Hret|]. split; congruence.
Qed.

(** [async_initialize] as one query on the context the base
    initialisation leaves. *)
Lemma onoff_async_initialize_eq (from_cache : bool) (c : Ctx OnOffChannel.t) :
  let c0 := (Base.async_initialize from_cache c).2 in
  let g := Base.get_attribute_value (AttrId OnOffChannel.ON_OFF) true c0 in
  OnOffChannel.async_initialize from_cache c =
    match g.1 with
    | inr PNone => (inr tt, g.2)
    | inr v => (inr tt, (OnOffChannel.set_state (Some (truthy v)) g.2).2)
    | inl e => (inl e, g.2)
    end.
Proof.
  intros c0 g. subst g c0. unfold OnOffChannel.async_initialize.
  destruct (async_initialize_frame from_cache c) as [Hret0 _].
  unfold bind at 1.
  destruct (Base.async_initialize from_cache c) as [[x|[]] c0];
    cbn [fst snd] in *; [discriminate|].
  unfold bind.
  destruct (Base.get_attribute_value _ true c0) as [[x|v] c1];
    cbn [fst snd]; [reflexivity|].
  now destruct v.
Qed.

(** What a refresh does to the tracked state and the bus. *)
Lemma refresh_effect (c : Ctx OnOffChannel.t) (from_cache : bool) :
  let refreshed (r : (exn + unit) * Ctx OnOffChannel.t) :=
    r.1 = inr tt /\
    bus (hass r.2) = bus (hass c) /\
    (OnOffChannel._state (self r.2) = OnOffChannel._state (self c) \/
     exists b, OnOffChannel._state (self r.2) = Some b) in
  refreshed (OnOffChannel.async_update c) /\
  refreshed (OnOffChannel.async_initialize from_cache c).
Proof.
  intros refreshed. subst refreshed. cbv beta. split.
  - unfold OnOffChannel.async_update, bind, gets. cbv beta iota zeta.
    (* every copy of the run is unfolded alike *)
    destruct (is_client _); [now repeat split; auto|].
    unfold Base.debug, on_hass, modify. cbv beta iota.
    match goal with
    | |- context [Base.get_attribute_value ?a ?f ?c'] =>
        destruct (get_attribute_value_quiet a f c') as ([v Hv] & Hbus & Hst);
        destruct (Base.get_attribute_value a f c') as [[x|v'] c1];
        cbn [fst snd] in Hv, Hbus, Hst
    end; [discriminate|].
    cbn in Hbus, Hst.
    destruct v'; cbn; (split; [reflexivity|]); (split; [exact Hbus|]);
      first [left; exact Hst|right; eexists; reflexivity].
  - rewrite onoff_async_initialize_eq.
    pose proof (populate_quiet from_cache (_report_config (super (self c))) c)
      as (_ & Hbus0 & Hst0).
    change (foldr _ (ret tt) (_report_config (super (self c))) c)
      with (Base.async_initialize from_cache c) in Hbus0, Hst0.
    set (c0 := (Base.async_initialize from_cache c).2) in *.
    destruct (get_attribute_value_quiet (AttrId OnOffChannel.ON_OFF) true c0)
      as ([v Hv] & Hbus & Hst).
    destruct (Base.get_attribute_value _ true c0) as [[x|v'] c1];
      cbn [fst snd] in *; [discriminate|].
    destruct v'; cbn; (split; [reflexivity|]); (split; [congruence|]);
      first [left; congruence|right; eexists; reflexivity].
Qed.

Lemma command_follows_bus (c : Ctx OnOffChannel.t) (tsn command_id : Z)
    (args : list Z) :
  follows_bus c (step (Command tsn command_id args) c).
Proof.
  unfold step, handler, follows_bus, on_off_signal. onoff_unfold cmd.
  destruct c as [[b st l] h].
  case_names cmd; unfold gets; cbn;
    try (right; eexists; split; reflexivity);
    try (left; split; reflexivity).
  destruct args as [|a [|t rest]]; cbn;
    try (left; split; reflexivity).
  destruct (a =? 0), (a =? 1), st as [[|]|]; cbn;
    try (left; split; reflexivity);
    destruct l as [n|], (t >? 0); cbn;
    right; exists (PBool true); split; reflexivity.
Qed.

Lemma fire_follows_bus (c : Ctx OnOffChannel.t) (n : nat) :
  follows_bus c (step (TimerFired n) c).
Proof.
  unfold step, handler, follows_bus, on_off_signal, OnOffChannel.fire, bind,
    gets.
  cbv beta iota.
  destruct (List.find _ (timers (hass c))) as [[th td []]|]; cbn.
  - right. exists (PBool false). split; reflexivity.
  - left. split; reflexivity.
Qed.

Lemma report_follows_bus (c : Ctx OnOffChannel.t) (attrid : Z)
    (value : pyval) :
  follows_bus c (step (AttributeReport attrid value) c).
Proof.
  unfold step, handler, follows_bus, on_off_signal,
    OnOffChannel.attribute_updated.
  destruct (Z.eqb_spec attrid OnOffChannel.ON_OFF) as [->|_]; cbn.
  - right. exists value. split; reflexivity.
  - left. split; reflexivity.
Qed.

(** X13: The tracked state follows the bus: a command, an attribute report or a
    timer firing publishes at most one on/off update, and when it
    publishes one the tracked state becomes the truth value of what was
    published; when it publishes none the tracked state is kept. *)
Theorem onoff_state_follows_bus (c : Ctx OnOffChannel.t) :
  (forall (tsn command_id : Z) (args : list Z),
      follows_bus c (step (Command tsn command_id args) c)) /\
  (forall (attrid : Z) (value : pyval),
      follows_bus c (step (AttributeReport attrid value) c)) /\
  (forall n : nat, follows_bus c (step (TimerFired n) c)).
Proof.
  split; [|split]; intros.
  - apply command_follows_bus.
  - apply report_follows_bus.
  - apply fire_follows_bus.
Qed.

(** X14: Once the on/off state is known it stays known: no event, whether it
    returns or raises, puts the tracked state back to [None]. *)
Theorem onoff_state_stays_known (c : Ctx OnOffChannel.t) (e : Event) :
  is_Some (OnOffChannel._state (self c)) ->
  is_Some (OnOffChannel._state (self (step e c))).
Proof.
  intros Hknown.
  assert (forall c', follows_bus c c' ->
                     is_Some (OnOffChannel._state (self c'))) as Hfollow.
  { intros c' [[_ ->]|(v & _ & ->)]; [exact Hknown|eexists; reflexivity]. }
  destruct e as [tsn command_id args|attrid value|n|from_cache|].
  - apply Hfollow, command_follows_bus.
  - apply Hfollow, report_follows_bus.
  - apply Hfollow, fire_follows_bus.
  - destruct (refresh_effect c from_cache) as [_ (_ & _ & [Hst|[b Hst]])];
      unfold step, handler; rewrite Hst; [exact Hknown|eexists; reflexivity].
  - destruct (refresh_effect c true) as [(_ & _ & [Hst|[b Hst]]) _];
      unfold step, handler; rewrite Hst; [exact Hknown|eexists; reflexivity].
Qed.

Lemma onoff_state_stays_known_witness :
  is_Some (OnOffChannel._state (self (step Update Sample.onoff_on))).
Proof.
  apply (onoff_state_stays_known Sample.onoff_on Update).
  eexists. reflexivity.
Defined.

(** X15: [async_initialize] asks for [on_off] with the cache allowed whatever
    its [from_cache] argument is: after the base initialisation the one
    query it makes carries [True], a cached value is used without any
    cluster read, and the tracked state is replaced only by an answer that
    is not [None]. *)
Theorem onoff_initialize_prefers_cache (c : Ctx OnOffChannel.t)
    (from_cache : bool) :
  let c0 := (Base.async_initialize from_cache c).2 in
  let r := OnOffChannel.async_initialize from_cache c in
  let query := CallGet (AttrId OnOffChannel.ON_OFF) true in
  exists (v : pyval) (io : list Call),
    (Base.get_attribute_value (AttrId OnOffChannel.ON_OFF) true c0).1
      = inr v /\
    calls (hass r.2) = (calls (hass c0) ++ query :: io)%list /\
    (io = [] \/ io = [CallReadAttributes (AttrId OnOffChannel.ON_OFF) true]) /\
    (is_Some (cache (super (self c0)) !! OnOffChannel.ON_OFF) -> io = []) /\
    OnOffChannel._state (self r.2) =
      match v with
      | PNone => OnOffChannel._state (self c0)
      | _ => Some (truthy v)
      end.
Proof.
  intros c0 r query. subst r. rewrite onoff_async_initialize_eq. fold c0.
  destruct (get_attribute_value_run (AttrId OnOffChannel.ON_OFF) true c0)
    as (v & io & Hv & Hcalls & Hio & _ & Hst & _).
  assert (is_Some (cache (super (self c0)) !! OnOffChannel.ON_OFF) ->
          (Base.get_attribute_value (AttrId OnOffChannel.ON_OFF) true c0).2
            = called query c0) as Hhit.
  { intros [w Hw]. unfold Base.get_attribute_value, bind, record_call,
      on_hass, modify, gets. cbv beta iota. cbn. cbn in Hw. rewrite Hw.
    reflexivity. }
  destruct (Base.get_attribute_value _ true c0) as [[x|v'] c1];
    cbn [fst snd] in Hv, Hcalls, Hst, Hhit |- *; [discriminate|].
  injection Hv as ->. exists v, io.
  split; [reflexivity|]. split; [now destruct v|]. split; [exact Hio|].
  split; [|now destruct v].
  intros Hcached. rewrite (Hhit Hcached) in Hcalls. cbn in Hcalls.
  apply app_inv_head in Hcalls. now injection Hcalls as <-.
Qed.

(** ** Power Configuration: edge cases of a report *)

(** X16: When the report configuration has fewer than two entries, every
    attribute report raises [IndexError] and publishes nothing. *)
Theorem power_short_report_config_raises
    (c : Ctx PowerConfigurationChannel.t) (attrid : Z) (value : pyval) :
  (length (_report_config (super (self c))) < 2)%nat ->
  PowerConfigurationChannel.attribute_updated attrid value c
    = (inl IndexError, c).
Proof.
  intros Hlen.
  unfold PowerConfigurationChannel.attribute_updated, bind, gets, getitem.
  cbv beta iota zeta.
  rewrite (lookup_ge_None_2 (_report_config (super (self c))) 1) by lia.
  reflexivity.
Qed.

Lemma power_short_report_config_raises_witness :
  PowerConfigurationChannel.attribute_updated 33 (PInt 180) power_short
    = (inl IndexError, power_short).
Proof.
  apply (power_short_report_config_raises power_short 33 (PInt 180)).
  simpl. lia.
Defined.

(** X17: When the cluster has no attribute under the name the entry at index 1
    declares, no report is ever published as "attribute updated": every
    report, whatever its id, goes out as a "state attribute" signal. *)
Theorem power_unresolved_primary_never_matches
    (c : Ctx PowerConfigurationChannel.t) (attrid : Z) (value : pyval)
    (name : string) (cfg : ReportConfig) :
  _report_config (super (self c)) !! 1%nat = Some (mkEntry (AttrName name) cfg) ->
  attridx (cluster (super (self c))) !! name = None ->
  let b := super (self c) in
  PowerConfigurationChannel.attribute_updated attrid value c =
    (inr tt,
     published
       (mkSignal (Suffixed (unique_id b) SIGNAL_STATE_ATTR)
                 [PowerConfigurationChannel.attribute_name (cluster b) attrid;
                  value])
       c).
Proof.
  intros Hentry Hname b.
  rewrite (power_attribute_updated_run c attrid value _ Hentry).
  cbn [attr Base.resolve_attr]. rewrite Hname. reflexivity.
Qed.

Lemma power_unresolved_primary_never_matches_witness :
  bus (hass (PowerConfigurationChannel.attribute_updated 33 (PInt 180)
               power_no_percentage).2) =
    [mkSignal (Suffixed (unique_id (super (self power_no_percentage)))
                        SIGNAL_STATE_ATTR) [PInt 33; PInt 180]].
Proof.
  rewrite (power_unresolved_primary_never_matches power_no_percentage 33
             (PInt 180) "battery_percentage_remaining"
             REPORT_CONFIG_BATTERY_SAVE); reflexivity.
Defined.

(** X18: A report for an attribute id the cluster has no name for is still
    published, exactly once, and carries the numeric id where the name
    would be. *)
Theorem power_unnamed_attribute_published
    (c : Ctx PowerConfigurationChannel.t) (attrid : Z) (value : pyval)
    (entry : ReportConfigEntry) :
  _report_config (super (self c)) !! 1%nat = Some entry ->
  attributes (cluster (super (self c))) !! attrid = None ->
  let b := super (self c) in
  let r := PowerConfigurationChannel.attribute_updated attrid value c in
  r.1 = inr tt /\
  (bus (hass r.2) =
     (bus (hass c) ++
      [mkSignal (Suffixed (unique_id b) SIGNAL_ATTR_UPDATED)
                [PInt attrid; PInt attrid; value]])%list \/
   bus (hass r.2) =
     (bus (hass c) ++
      [mkSignal (Suffixed (unique_id b) SIGNAL_STATE_ATTR)
                [PInt attrid; value]])%list).
Proof.
  intros Hentry Hname b r. subst r.
  rewrite (power_attribute_updated_run c attrid value entry Hentry).
  unfold PowerConfigurationChannel.attribute_name. rewrite Hname.
  split; [reflexivity|].
  destruct (PowerConfigurationChannel.same_id _ _); [left|right]; reflexivity.
Qed.

Lemma power_unnamed_attribute_published_witness :
  bus (hass (PowerConfigurationChannel.attribute_updated 62 (PInt 1)
               Sample.power).2) =
    [mkSignal (Suffixed (unique_id (super (self Sample.power)))
                        SIGNAL_STATE_ATTR) [PInt 62; PInt 1]].
Proof.
  destruct (power_unnamed_attribute_published Sample.power 62 (PInt 1)
              (mkEntry (AttrName "battery_percentage_remaining")
                       REPORT_CONFIG_BATTERY_SAVE))
    as (_ & [Hbus|Hbus]);
    [reflexivity|reflexivity|vm_compute in Hbus; discriminate Hbus|exact Hbus].
Defined.

(** ** OTA: one signal per device *)

Lemma str_split_prefix (sep : ascii) (p rest : string) :
  (forall ch, In ch (list_ascii_of_string p) -> ch <> sep) ->
  str_split sep (p ++ String sep rest)%string = p :: str_split sep rest.
Proof.
  induction p as [|ch p IH]; intros Hfree.
  - change (EmptyString ++ String sep rest)%string with (String sep rest).
    cbn [str_split]. now rewrite Ascii.eqb_refl.
  - change (String ch p ++ String sep rest)%string
      with (String ch (p ++ String sep rest))%string.
    cbn [str_split].
    destruct (Ascii.eqb_spec ch sep) as [->|_].
    + exfalso. now apply (Hfree sep); [left|].
    + rewrite IH; [reflexivity|]. intros x Hin. apply Hfree. now right.
Qed.

(** X19: The "update device" signal is addressed at the device, not at the
    endpoint: when the pool's unique id is a device part free of "-"
    followed by "-" and anything, the signal is named after the device
    part alone, so every endpoint of one device publishes under the same
    name. *)
Theorem ota_signal_addresses_device (c : Ctx Ota.t) (tsn command_id : Z)
    (l : list pyval) (version : pyval) (device endpoint : string) :
  pool_unique_id (_ch_pool (super (self c)))
    = (device ++ String "-" endpoint)%string ->
  (forall ch, In ch (list_ascii_of_string device) -> ch <> "-"%char) ->
  Ota.resolved (server_commands (cluster (super (self c)))) command_id
    = PStr "query_next_image" ->
  l !! 3%nat = Some version ->
  Ota.cluster_command tsn command_id (Some l) c =
    (inr tt,
     published (mkSignal (Formatted SIGNAL_UPDATE_DEVICE device) [version]) c).
Proof.
  intros Huid Hfree Hcmd Hl.
  unfold Ota.cluster_command, bind, gets, getitem. cbv beta iota.
  rewrite Huid, str_split_prefix by exact Hfree. cbn in *.
  rewrite Hcmd. cbn. unfold getitem. rewrite Hl. reflexivity.
Qed.

Lemma ota_signal_addresses_device_witness :
  bus (hass (Ota.cluster_command 7 1 (Some [PInt 1; PInt 2; PInt 3; PInt 4])
               Sample.ota).2) =
  bus (hass (Ota.cluster_command 9 1 (Some [PInt 1; PInt 2; PInt 3; PInt 4])
               ota_endpoint_2).2).
Proof.
  assert (forall ch, In ch (list_ascii_of_string "00:0d:6f:00:0a:90:69:e7")
                     -> ch <> "-"%char) as Hfree.
  { intros ch Hin. cbn in Hin.
    repeat (destruct Hin as [<-|Hin]; [discriminate|]). destruct Hin. }
  rewrite (ota_signal_addresses_device Sample.ota 7 1
             [PInt 1; PInt 2; PInt 3; PInt 4] (PInt 4)
             "00:0d:6f:00:0a:90:69:e7" "1" eq_refl Hfree eq_refl eq_refl).
  rewrite (ota_signal_addresses_device ota_endpoint_2 9 1
             [PInt 1; PInt 2; PInt 3; PInt 4] (PInt 4)
             "00:0d:6f:00:0a:90:69:e7" "2" eq_refl Hfree eq_refl eq_refl).
  reflexivity.
Defined.

(** ** Poll Control: the other outcomes of the write *)

(** X20: When the write of the check-in interval succeeds,
    [async_configure] logs the interval in seconds (3300, fifty-five
    minutes) with the result, then runs the base configuration step on
    the context the logging left; the write is the first call the cluster
    sees, and nothing is raised. *)
Theorem poll_configure_write_accepted (c : Ctx PollControl.t) (res : pyval) :
  write_attributes (cluster (super (self c)))
                   [("checkin_interval", PollControl.CHECKIN_INTERVAL)]
    = inr res ->
  let r := PollControl.async_configure c in
  let attempt := CallWriteAttributes [("checkin_interval", 13200)] in
  let success :=
    mkLog "%ss check-in interval set: %s" [PFloat (Q2Qc 3300); res] in
  r.1 = inr tt /\
  success ∈ log (hass r.2) /\
  r = Base.async_configure
        (logged (log_msg success) (log_args success) (called attempt c)) /\
  exists later : list Call,
    calls (hass r.2) = (calls (hass c) ++ attempt :: later)%list.
Proof.
  intros Hwrite r attempt success.
  assert (Q2Qc (PollControl.CHECKIN_INTERVAL # 4) = Q2Qc 3300) as Hsecs
    by (apply Qc_is_canon; reflexivity).
  assert (r = Base.async_configure
                (logged (log_msg success) (log_args success)
                        (called attempt c))) as Hr.
  { subst r. unfold PollControl.async_configure, try_except,
      PollControl.cluster_write_attributes, bind, gets, record_call, on_hass,
      modify.
    cbv beta iota zeta. cbn [self hass]. rewrite Hwrite. cbv beta iota.
    unfold Base.debug, on_hass, modify. cbv beta iota.
    rewrite Hsecs. reflexivity. }
  destruct (base_async_configure_run
              (logged (log_msg success) (log_args success) (called attempt c)))
    as (Hret & _ & [l Hlog] & Hcalls).
  rewrite <- Hr in Hret, Hlog, Hcalls.
  split; [exact Hret|]. split; [|split; [exact Hr|]].
  - rewrite Hlog. cbn. rewrite <- app_assoc.
    apply elem_of_app. right. apply list_elem_of_here.
  - eexists. rewrite Hcalls. cbn. rewrite <- app_assoc. reflexivity.
Qed.

Lemma poll_configure_write_accepted_witness :
  (PollControl.async_configure (poll_with (inr (PInt 0)))).1 = inr tt.
Proof.
  apply (poll_configure_write_accepted (poll_with (inr (PInt 0))) (PInt 0)).
  reflexivity.
Defined.

(** X21: An exception of the write that is neither a timeout nor a Zigbee
    exception is not caught: [async_configure] raises it to its caller
    right after the write, nothing is logged and the base configuration
    step is not run. *)
Theorem poll_configure_other_exception_escapes (c : Ctx PollControl.t)
    (e : exn) :
  write_attributes (cluster (super (self c)))
                   [("checkin_interval", PollControl.CHECKIN_INTERVAL)]
    = inl e ->
  e <> TimeoutError -> e <> ZigbeeException ->
  PollControl.async_configure c =
    (inl e, called (CallWriteAttributes [("checkin_interval", 13200)]) c).
Proof.
  intros Hwrite Ht Hz.
  unfold PollControl.async_configure, try_except,
    PollControl.cluster_write_attributes, bind, gets, record_call, on_hass,
    modify.
  cbv beta iota zeta. cbn [self hass]. rewrite Hwrite.
  destruct e; try contradiction; reflexivity.
Qed.

Lemma poll_configure_other_exception_escapes_witness :
  (PollControl.async_configure (poll_with (inl RuntimeError))).1
    = inl RuntimeError /\
  CallBind ∉ calls (hass (PollControl.async_configure
                            (poll_with (inl RuntimeError))).2).
Proof.
  rewrite (poll_configure_other_exception_escapes
             (poll_with (inl RuntimeError)) RuntimeError eq_refl);
    [|discriminate|discriminate].
  split; [reflexivity|]. cbn.
  intros Hin. apply list_elem_of_singleton in Hin. discriminate Hin.
Defined.

(** ** Poll Control: the check-in handshake *)


(** X23: The handshake end to end: a [checkin] command queues a task
    which, when it is run and the cluster accepts the acknowledgement,
    acknowledges with fast polling and a timeout of 8 quarter seconds
    under the command's transaction number and then sets the long poll
    interval to 24 quarter seconds, in that order and nothing else; when
    the cluster accepts the interval too the task ends normally. *)
Theorem poll_checkin_handshake (w : PollControlCommand.World)
    (tsn command_id : Z) (args : option (list pyval)) (accepted_ack : pyval) :
  let ack := PollControlCommand.checkin_response true 8 tsn in
  let resume := PollControlCommand.set_long_poll_interval 24 in
  Ota.resolved
    (client_commands (cluster (super (self (PollControlCommand.ctx w)))))
    command_id = PStr "checkin" ->
  PollControlCommand.tasks w = [] ->
  PollControlCommand.replies w ack = inr accepted_ack ->
  let w1 := (PollControlCommand.cluster_command tsn command_id args w).2 in
  exists t : PollControlCommand.Task,
    PollControlCommand.tasks w1 = [t] /\
    let r := PollControlCommand.run_task t w1 in
    PollControlCommand.sent r.2
      = (PollControlCommand.sent w ++ [ack; resume])%list /\
    ((exists res, PollControlCommand.replies w resume = inr res) ->
     r.1 = inr tt).
Proof.
  intros ack resume Hcmd Hidle Hack w1.
  exists (PollControlCommand.check_in_response_task tsn). subst w1.
  unfold PollControlCommand.cluster_command,
    PollControlCommand.zha_send_event,
    PollControlCommand.create_catching_task, PollControlCommand.lift,
    Base.debug, on_hass, bind, gets, modify, ret.
  cbv beta iota zeta. rewrite Hcmd. cbn [eq_str String.eqb].
  cbn. rewrite Hidle. split; [reflexivity|].
  unfold PollControlCommand.check_in_response,
    PollControlCommand.send_command, PollControlCommand.lift, Base.debug,
    on_hass, bind, gets, modify, ret.
  cbn. change PollControl.CHECKIN_FAST_POLL_TIMEOUT with 8.
  change PollControl.LONG_POLL with 24. fold ack resume.
  rewrite Hack. cbn. rewrite <- app_assoc.
  destruct (PollControlCommand.replies w resume) as [e|res'] eqn:Hres; cbn.
  - split; [reflexivity|]. intros [res Habs]. discriminate Habs.
  - split; [reflexivity|]. intros _. reflexivity.
Qed.

Lemma poll_checkin_handshake_witness :
  PollControlCommand.sent
    (PollControlCommand.run_task
       (PollControlCommand.check_in_response_task 11)
       (PollControlCommand.cluster_command 11 0 None
          (poll_world (inr PNone))).2).2
  = [PollControlCommand.checkin_response true 8 11;
     PollControlCommand.set_long_poll_interval 24].
Proof.
  destruct (poll_checkin_handshake (poll_world (inr PNone)) 11 0 None PNone
              eq_refl eq_refl eq_refl) as (t & Ht & Hsent & _).
  vm_compute in Ht. injection Ht as <-. exact Hsent.
Defined.

(** ** Basic: the power source *)

Lemma basic_get_attribute_value_run (a : AttrRef) (from_cache : bool)
    (c : Ctx BasicChannel.t) :
  let r := Base.get_attribute_value a from_cache c in
  exists (v : pyval) (io : list Call),
    r.1 = inr v /\
    calls (hass r.2) = (calls (hass c) ++ CallGet a from_cache :: io)%list /\
    (from_cache = false ->
       io = [CallReadAttributes a false] /\
       v = match read_attributes (cluster (super (self c))) a false with
           | inr v' => v'
           | inl _ => PNone
           end) /\
    BasicChannel._power_source (self r.2)
      = BasicChannel._power_source (self c) /\
    cluster (super (self r.2)) = cluster (super (self c)) /\
    _report_config (super (self r.2)) = _report_config (super (self c)).
Proof.
  unfold Base.get_attribute_value, Base.cache_put, Base.debug, bind,
    record_call, on_self, on_hass, modify, gets, ret.
  cbv beta iota.
  destruct c as [[b ps] h]. cbn.
  destruct from_cache.
  - destruct (Base.resolve_attr (cluster b) a ≫= _) as [v|].
    + exists v, []. cbn. repeat split; auto; discriminate.
    + destruct (read_attributes (cluster b) a true) as [e|v]; cbn.
      * exists PNone, [CallReadAttributes a true]. cbn.
        rewrite <- app_assoc. repeat split; auto; discriminate.
      * exists v, [CallReadAttributes a true].
        destruct v; cbn; destruct (Base.resolve_attr (cluster b) a); cbn;
          rewrite <- app_assoc; repeat split; auto; discriminate.
  - destruct (read_attributes (cluster b) a false) as [e|v]; cbn.
    + exists PNone, [CallReadAttributes a false]. cbn.
      rewrite <- app_assoc. repeat split; auto.
    + exists v, [CallReadAttributes a false].
      destruct v; cbn; destruct (Base.resolve_attr (cluster b) a); cbn;
        rewrite <- app_assoc; repeat split; auto.
Qed.

Lemma basic_populate (from_cache : bool) (l : list ReportConfigEntry)
    (c : Ctx BasicChannel.t) :
  let r := foldr (fun e k => Base.get_attribute_value (attr e) from_cache ;;; k)
                 (ret tt) l c in
  r.1 = inr tt /\
  BasicChannel._power_source (self r.2) = BasicChannel._power_source (self c)
  /\ exists io, calls (hass r.2) = (calls (hass c) ++ io)%list.
Proof.
  revert c. induction l as [|e l IH]; intros c; cbn [foldr].
  - split; [reflexivity|]. split; [reflexivity|].
    exists []. now rewrite app_nil_r.
  - destruct (basic_get_attribute_value_run (attr e) from_cache c)
      as (v & io & Hv & Hcalls & _ & Hps & _).
    set (rest := foldr _ _ l) in *. unfold bind.
    destruct (Base.get_attribute_value (attr e) from_cache c) as [[x|v'] c1];
      cbn [fst snd] in Hv, Hcalls, Hps.
    + discriminate.
    + destruct (IH c1) as (Hret & Hps' & [io' Hcalls']).
      split; [exact Hret|]. split; [congruence|].
      eexists. rewrite Hcalls', Hcalls, <- app_assoc. reflexivity.
Qed.

Lemma basic_async_initialize_effect (from_cache : bool)
    (c : Ctx BasicChannel.t) :
  let ps := AttrName "power_source" in
  let g := Base.get_attribute_value ps from_cache c in
  let r := BasicChannel.async_initialize from_cache c in
  r.1 = inr tt /\
  exists (v : pyval) (io : list Call),
    g.1 = inr v /\
    calls (hass r.2) = (calls (hass g.2) ++ io)%list /\
    BasicChannel.get_power_source (self r.2) =
      match v with
      | PNone => BasicChannel.get_power_source (self c)
      | _ => v
      end.
Proof.
  intros ps g r.
  assert (forall r0, r0 = BasicChannel.async_initialize from_cache c ->
            r0.1 = inr tt /\
            exists (v : pyval) (io : list Call),
              g.1 = inr v /\
              calls (hass r0.2) = (calls (hass g.2) ++ io)%list /\
              BasicChannel.get_power_source (self r0.2) =
                match v with
                | PNone => BasicChannel.get_power_source (self c)
                | _ => v
                end) as H; [|exact (H r eq_refl)].
  intros r0 Hr0. unfold BasicChannel.async_initialize in Hr0.
  unfold bind at 1 2 in Hr0. fold ps g in Hr0.
  destruct (basic_get_attribute_value_run ps from_cache c)
    as (v & io & Hv & _ & _ & Hps & _).
  fold g in Hv, Hps.
  destruct g as [[x|v'] c1]; cbn [fst snd] in *; [discriminate|].
  injection Hv as ->.
  assert (exists c2,
             BasicChannel._power_source (self c2) =
               match v with
               | PNone => BasicChannel._power_source (self c)
               | _ => v
               end /\
             calls (hass c2) = calls (hass c1) /\
             r0 = Base.async_initialize from_cache c2) as (c2 & Hps2 & Hc2 & ->).
  { destruct v; cbn in Hr0;
      eexists; (split; [|split; [|exact Hr0]]); cbn; auto. }
  pose proof (basic_populate from_cache (_report_config (super (self c2))) c2)
    as (Hret & Hps' & [io' Hcalls']).
  change (foldr _ (ret tt) (_report_config (super (self c2))) c2)
    with (Base.async_initialize from_cache c2) in Hret, Hps', Hcalls'.
  split; [exact Hret|]. exists v, io'.
  split; [reflexivity|]. split; [now rewrite Hcalls', Hc2|].
  unfold BasicChannel.get_power_source. now rewrite Hps', Hps2.
Qed.

(** X24: A failed or empty read never erases what is known: [async_initialize]
    returns, and the power source afterwards is the answer to its query
    when that answer is not [None], and the one held before otherwise. *)
Theorem basic_initialize_keeps_known (c : Ctx BasicChannel.t)
    (from_cache : bool) :
  let g := Base.get_attribute_value (AttrName "power_source") from_cache c in
  let r := BasicChannel.async_initialize from_cache c in
  r.1 = inr tt /\
  exists v : pyval,
    g.1 = inr v /\
    BasicChannel.get_power_source (self r.2) =
      match v with
      | PNone => BasicChannel.get_power_source (self c)
      | _ => v
      end.
Proof.
  intros g r.
  destruct (basic_async_initialize_effect from_cache c)
    as (Hret & v & io & Hv & _ & Hps).
  split; [exact Hret|]. exists v. now split.
Qed.

(** X25: [async_configure] always asks the device itself: after the bind and the
    report configuration it reads [power_source] live, whatever the cache
    holds, and the power source afterwards is the device's answer, or the
    one held before when the read fails or answers [None]. *)
Theorem basic_configure_reads_live (c : Ctx BasicChannel.t) :
  let b := super (self c) in
  let ps := AttrName "power_source" in
  let r := BasicChannel.async_configure c in
  r.1 = inr tt /\
  (exists io : list Call,
      calls (hass r.2) =
        (calls (hass c) ++
         [CallBind; CallConfigureReporting (attr <$> _report_config b);
          CallGet ps false; CallReadAttributes ps false] ++ io)%list) /\
  BasicChannel.get_power_source (self r.2) =
    match read_attributes (cluster b) ps false with
    | inr PNone | inl _ => BasicChannel.get_power_source (self c)
    | inr v => v
    end.
Proof.
  intros b ps r.
  assert (forall r0, r0 = BasicChannel.async_configure c ->
            r0.1 = inr tt /\
            (exists io : list Call,
                calls (hass r0.2) =
                  (calls (hass c) ++
                   [CallBind;
                    CallConfigureReporting (attr <$> _report_config b);
                    CallGet ps false; CallReadAttributes ps false] ++ io)%list)
            /\ BasicChannel.get_power_source (self r0.2) =
                 match read_attributes (cluster b) ps false with
                 | inr PNone | inl _ => BasicChannel.get_power_source (self c)
                 | inr v => v
                 end) as H; [|exact (H r eq_refl)].
  intros r0 Hr0. unfold BasicChannel.async_configure, bind in Hr0.
  destruct (base_async_configure_run c) as (Hret0 & Hself0 & _ & Hcalls0).
  destruct (Base.async_configure c) as [[x|[]] c0];
    cbn [fst snd] in *; [discriminate|].
  destruct (basic_async_initialize_effect false c0)
    as (Hret & v & io & Hv & Hcalls & Hps).
  rewrite <- Hr0 in Hret, Hcalls, Hps.
  destruct (basic_get_attribute_value_run ps false c0)
    as (v' & io' & Hv' & Hcalls' & Hlive & _).
  fold ps in Hv, Hcalls.
  rewrite Hv' in Hv. injection Hv as ->.
  destruct (Hlive eq_refl) as [-> Hval].
  split; [exact Hret|]. split.
  - exists io. rewrite Hcalls, Hcalls', Hcalls0, <- !app_assoc. reflexivity.
  - rewrite Hps, Hval. unfold BasicChannel.get_power_source.
    rewrite Hself0. subst b.
    destruct (read_attributes (cluster (super (self c))) ps false)
      as [e|[]]; reflexivity.
Qed.

Lemma onoff_initialize_prefers_cache_witness :
  calls (hass (OnOffChannel.async_initialize false onoff_cached).2) =
    [CallGet (AttrName "on_off") false;
     CallReadAttributes (AttrName "on_off") false;
     CallGet (AttrId OnOffChannel.ON_OFF) true] /\
  OnOffChannel._state
    (self (OnOffChannel.async_initialize false onoff_cached).2) = Some true.
Proof.
  destruct (onoff_initialize_prefers_cache onoff_cached false)
    as (v & io & Hv & Hcalls & _ & Hhit & Hst).
  rewrite Hhit in Hcalls by (eexists; vm_compute; reflexivity).
  split; [exact Hcalls|].
  vm_compute in Hv. injection Hv as <-. exact Hst.
Defined.
